(** * Gridfinity tray generator: [app.py]

    A shallow embedding of the two pure generators of [app.py],
    [generate_scad] and [generate_svg], of the routes that decide what the
    generators are given and what is done with their output, and of the
    conversion to a mesh, with the machine's answers as a parameter.

    Python values are modelled as the interpreter has them:
    - [int] is [Z] (unbounded);
    - [float] is an IEEE 754 binary64 number, Rocq's primitive [float];
      [int * float] converts the integer first and raises [OverflowError]
      when it does not fit;
    - [str] is [string]; an f-string field [{v}] is [str(v)], which for a
      float is the shortest decimal text that reads back as the same float;
    - a [dict] is a finite map from strings to values. *)

From Stdlib Require Import ZArith String Ascii List Lia Bool.
From Stdlib Require Import DecimalString.
From Stdlib Require Import PrimFloat SpecFloat FloatOps.
From Stdlib Require Import QArith Qround Lqa.
From stdpp Require Import base option list gmap strings.
Set Warnings "-inexact-float".

Local Open Scope string_scope.
Local Open Scope Z_scope.

(** ** Python integers and floats *)

Module PyNum.

(** [float(n)] for an [int]: the nearest binary64 number, ties to even. *)
Definition Z2float (z : Z) : float :=
  SF2Prim (binary_normalize prec emax z 0 false).

(** The least magnitude whose nearest binary64 number is out of range: the
    midpoint between the largest finite float and [2^1024]. *)
Definition float_overflow : Z := 2 ^ 1024 - 2 ^ 970.

(** [PyLong_AsDouble]: [None] stands for
    [OverflowError: int too large to convert to float]. *)
Definition int_to_float (z : Z) : option float :=
  if Z.abs z <? float_overflow then Some (Z2float z) else None.

(** [str(n)] for an [int]. *)
Definition str_int (z : Z) : string := NilZero.string_of_int (Z.to_int z).

(** *** [repr] of a float

    CPython prints a float with the shortest digit string that rounds back
    to it, and the closest such string when there are several. For the
    finite non-zero float [m * 2^e] everything is computed on integers
    scaled by [2^s], [s = max 0 (2 - e)]. *)

Record interval := {
  iv_scale : Z;      (* s *)
  iv_val   : Z;      (* the float, times 2^s *)
  iv_lo    : Z;      (* midpoint to the float below, times 2^s *)
  iv_hi    : Z;      (* midpoint to the float above, times 2^s *)
  iv_closed : bool   (* the midpoints round to this float: even mantissa *)
}.

Definition rounding_interval (m : positive) (e : Z) : interval :=
  let s := Z.max 0 (2 - e) in
  let v := Z.pos m * 2 ^ (e + s) in
  let up := 2 ^ (e + s - 1) in
  let down := if (Z.pos m =? 2 ^ 52) && (-1074 <? e)
              then 2 ^ (e + s - 2) else 2 ^ (e + s - 1) in
  {| iv_scale := s; iv_val := v; iv_lo := v - down; iv_hi := v + up;
     iv_closed := Z.even (Z.pos m) |}.

(** Compare [d * 10^p] (times [2^s]) with the scaled integer [x]. *)
Definition cmp_dec (s d p x : Z) : comparison :=
  if 0 <=? p then (d * 10 ^ p * 2 ^ s ?= x) else (d * 2 ^ s ?= x * 10 ^ (- p)).

Definition inside (iv : interval) (d p : Z) : bool :=
  let below := cmp_dec (iv_scale iv) d p (iv_lo iv) in
  let above := cmp_dec (iv_scale iv) d p (iv_hi iv) in
  match below, above with
  | Gt, Lt => true
  | Eq, Lt | Gt, Eq => iv_closed iv
  | _, _ => false
  end.

(** The least [k] with [value < 10^k], searched upwards from an estimate
    taken from the binary exponent. *)
Fixpoint find_decpt (fuel : nat) (iv : interval) (k : Z) : Z :=
  match fuel with
  | O => k
  | S fuel' =>
      match cmp_dec (iv_scale iv) 1 k (iv_val iv) with
      | Gt => k
      | _ => find_decpt fuel' iv (k + 1)
      end
  end.

Definition decpt_estimate (m : positive) (e : Z) : Z :=
  (Z.log2 (Z.pos m) + e) * 30103 / 100000 - 1.

(** [floor (value / 10^p)]. *)
Definition scaled_floor (iv : interval) (p : Z) : Z :=
  if 0 <=? p then iv_val iv / (10 ^ p * 2 ^ iv_scale iv)
  else iv_val iv * 10 ^ (- p) / 2 ^ iv_scale iv.

(** Digit generation: with [n] digits the candidates are the floor and the
    floor plus one; the first [n] for which one of them rounds back to the
    float wins, the closer one when both do (ties to the even digit). *)
Fixpoint shortest (fuel : nat) (iv : interval) (k n : Z) : Z * Z :=
  let p := k - n in
  let d := scaled_floor iv p in
  match fuel with
  | O => (d, n)
  | S fuel' =>
      match inside iv d p, inside iv (d + 1) p with
      | true, true =>
          match cmp_dec (iv_scale iv) (2 * d + 1) p (2 * iv_val iv) with
          | Gt => (d, n)
          | Lt => (d + 1, n)
          | Eq => (if Z.even d then d else d + 1, n)
          end
      | true, false => (d, n)
      | false, true => (d + 1, n)
      | false, false => shortest fuel' iv k (n + 1)
      end
  end.

Fixpoint strip_zeros_rev (s : list ascii) : list ascii :=
  match s with
  | "0"%char :: s' => strip_zeros_rev s'
  | _ => s
  end.

Definition strip_trailing_zeros (s : string) : string :=
  string_of_list_ascii (rev (strip_zeros_rev (rev (list_ascii_of_string s)))).

(** The digits [d1 d2 ...] and the position [decpt] of the decimal point:
    the float is [0.d1d2... * 10^decpt]. *)
Definition float_digits (m : positive) (e : Z) : string * Z :=
  let iv := rounding_interval m e in
  let k := find_decpt 8 iv (decpt_estimate m e) in
  let '(d, n) := shortest 17 iv k 1 in
  let ds := str_int d in
  (strip_trailing_zeros ds, k + Z.of_nat (String.length ds) - n).

Fixpoint zeros (n : nat) : string :=
  match n with O => "" | S n' => String "0" (zeros n') end.

Definition take_str (n : nat) (s : string) : string := substring 0 n s.
Definition drop_str (n : nat) (s : string) : string :=
  substring n (String.length s - n) s.

(** The exponent of the [e] notation: a sign and at least two digits. *)
Definition str_exponent (x : Z) : string :=
  (if x <? 0 then "-" else "+") +:+
  (if Z.abs x <? 10 then "0" else "") +:+ str_int (Z.abs x).

(** [format_float_short] with format code [r] and [Py_DTSF_ADD_DOT_0]:
    exponent notation when [decpt <= -4] or [decpt > 16]. *)
Definition format_short (ds : string) (decpt : Z) : string :=
  let n := String.length ds in
  if (decpt <=? -4) || (16 <? decpt) then
    take_str 1 ds +:+ (if (1 <? n)%nat then "." +:+ drop_str 1 ds else "")
    +:+ "e" +:+ str_exponent (decpt - 1)
  else if decpt <=? 0 then
    "0." +:+ zeros (Z.to_nat (- decpt)) +:+ ds
  else if decpt <? Z.of_nat n then
    take_str (Z.to_nat decpt) ds +:+ "." +:+ drop_str (Z.to_nat decpt) ds
  else
    ds +:+ zeros (Z.to_nat decpt - n) +:+ ".0".

(** [repr(x)], which is also [str(x)] and what an f-string field prints. *)
Definition float_repr (x : float) : string :=
  match Prim2SF x with
  | S754_nan => "nan"
  | S754_infinity s => if s then "-inf" else "inf"
  | S754_zero s => if s then "-0.0" else "0.0"
  | S754_finite s m e =>
      let '(ds, decpt) := float_digits m e in
      (if s then "-" else "") +:+ format_short ds decpt
  end.

End PyNum.

(** ** Exceptions and the line buffer

    Both generators build a local list ([scad], [svg]) with [append] and
    return its lines joined by a newline. [M] threads that list and the
    exception a statement may raise. *)

Module PyExec.

(** The exceptions that reach a caller: the two the interpreter raises on
    numbers, and [OSError], which the machine raises when a file or a process
    cannot be handled. *)
Inductive pyexn := OverflowError | ValueError | OSError.

Inductive result (A : Type) :=
  | Raise (e : pyexn)
  | Return (a : A).
Arguments Raise {A} e.
Arguments Return {A} a.

Definition M (A : Type) : Type := list string -> result (A * list string).

Definition ret {A} (a : A) : M A := fun buf => Return (a, buf).

Definition bind {A B} (m : M A) (k : A -> M B) : M B :=
  fun buf =>
    match m buf with
    | Raise e => Raise e
    | Return (a, buf') => k a buf'
    end.

Definition raise {A} (e : pyexn) : M A := fun _ => Raise e.

(** [lst.append(s)] *)
Definition append (s : string) : M unit := fun buf => Return (tt, (buf ++ [s])%list).

(** [for a in l: body] *)
Fixpoint for_each {A} (l : list A) (body : A -> M unit) : M unit :=
  match l with
  | [] => ret tt
  | a :: l' => bind (body a) (fun _ => for_each l' body)
  end.

(** [range(n)] *)
Definition range (n : Z) : list Z := seqZ 0 n.

(** [sep.join(l)] *)
Fixpoint join (sep : string) (l : list string) : string :=
  match l with
  | [] => ""
  | [s] => s
  | s :: l' => s +:+ sep +:+ join sep l'
  end.

(** Run a function body whose local list starts empty and whose last
    statement is [return '\n'.join(lst)]. *)
Definition run_lines (body : M unit) : result (list string) :=
  match body [] with
  | Raise e => Raise e
  | Return (_, buf) => Return buf
  end.

Definition newline : string := String (ascii_of_nat 10) "".

(** The double quote character, as a one-character string. *)
Definition dq : string := String (ascii_of_nat 34) "".

Definition run_joined (body : M unit) : result string :=
  match run_lines body with
  | Raise e => Raise e
  | Return buf => Return (join newline buf)
  end.

(** [emits m ls]: from any buffer, [m] returns and has appended [ls]. *)
Definition emits (m : M unit) (ls : list string) : Prop :=
  forall buf, m buf = Return (tt, (buf ++ ls)%list).

End PyExec.

Module Notations.
Notation "x <- m ;; k" := (PyExec.bind m (fun x => k))
  (at level 100, m at next level, right associativity).
Notation "m ;;; k" := (PyExec.bind m (fun _ => k))
  (at level 100, right associativity).
End Notations.

(** ** The values of the feature dictionaries

    The routes build [grid] and [posts] with a [bool] under ['enable'] and
    floats elsewhere; the generator itself does not check which is where. *)

Module PyVal.
Import PyNum.

Inductive pyval :=
  | PyBool (b : bool)
  | PyFloat (x : float).

(** [bool(v)] *)
Definition truthy (v : pyval) : bool :=
  match v with
  | PyBool b => b
  | PyFloat x => negb (PrimFloat.eqb x 0)
  end.

(** The float an arithmetic operator sees. *)
Definition as_float (v : pyval) : float :=
  match v with
  | PyBool b => if b then 1%float else 0%float
  | PyFloat x => x
  end.

(** [str(v)], as an f-string field prints it. *)
Definition str_val (v : pyval) : string :=
  match v with
  | PyBool b => if b then "True" else "False"
  | PyFloat x => float_repr x
  end.

(** [d.get(key, default)] *)
Definition dict_get (d : gmap string pyval) (key : string) (default : pyval)
  : pyval :=
  match d !! key with
  | Some v => v
  | None => default
  end.

(** The test [d and d.get('enable')] on an optional dictionary: [None] and
    the empty dictionary are false, a missing key gives [None], false. *)
Definition enabled (d : option (gmap string pyval)) : bool :=
  match d with
  | None => false
  | Some g =>
      if (size g =? 0)%nat then false
      else match g !! "enable" with
           | Some v => truthy v
           | None => false
           end
  end.

End PyVal.

(** ** The generators *)

Module App.
Import PyNum PyExec PyVal Notations.

(** [n * x] for an [int] n and a [float] x. *)
Definition int_mul_float (n : Z) (x : float) : M float :=
  match int_to_float n with
  | Some f => ret (f * x)%float
  | None => raise OverflowError
  end.

(** [x / 2] *)
Definition half (x : float) : float := (x / 2)%float.

(** *** The lines of [generate_scad] that have fields *)

(** [f'    cube([{pocket_w}, {pocket_h}, height], center=false);'] *)
Definition pocket_cube (pocket_w pocket_h : float) : string :=
  "    cube([" +:+ float_repr pocket_w +:+ ", " +:+ float_repr pocket_h
  +:+ ", height], center=false);".

(** [f'    cube([{total_x}, {total_y}, height + wall], center=false);'] *)
Definition tray_cube (total_x total_y : float) : string :=
  "    cube([" +:+ float_repr total_x +:+ ", " +:+ float_repr total_y
  +:+ ", height + wall], center=false);".

(** ['    for (x = [0:' + str(cols-1) + ']) for (y = [0:' + str(rows-1) + '])'] *)
Definition pocket_loop (cols rows : Z) : string :=
  "    for (x = [0:" +:+ str_int (cols - 1) +:+ "]) for (y = [0:"
  +:+ str_int (rows - 1) +:+ "])".

(** The vertical ribs: a range along x, boxes as long as the tray in y. *)
Definition rib_loop_x (rib pitch ribh : pyval) (wall total_x total_y : float)
  : string :=
  "    for (x = [" +:+ float_repr (half (as_float rib)) +:+ ":"
  +:+ str_val pitch +:+ ":" +:+ float_repr (total_x - half (as_float rib))
  +:+ "]) translate([x, 0, " +:+ float_repr wall +:+ "]) cube(["
  +:+ str_val rib +:+ ", " +:+ float_repr total_y +:+ ", " +:+ str_val ribh
  +:+ "], center=false);".

(** The horizontal ribs: a range along y, boxes as long as the tray in x. *)
Definition rib_loop_y (rib pitch ribh : pyval) (wall total_x total_y : float)
  : string :=
  "    for (y = [" +:+ float_repr (half (as_float rib)) +:+ ":"
  +:+ str_val pitch +:+ ":" +:+ float_repr (total_y - half (as_float rib))
  +:+ "]) translate([0, y, " +:+ float_repr wall +:+ "]) cube(["
  +:+ float_repr total_x +:+ ", " +:+ str_val rib +:+ ", " +:+ str_val ribh
  +:+ "], center=false);".

(** [f'    translate([{cx}, {cy}, {wall}]) cylinder(h={h}, r={d/2}, $fn=32);'] *)
Definition post_line (d h : pyval) (wall cx cy : float) : string :=
  "    translate([" +:+ float_repr cx +:+ ", " +:+ float_repr cy +:+ ", "
  +:+ float_repr wall +:+ "]) cylinder(h=" +:+ str_val h +:+ ", r="
  +:+ float_repr (half (as_float d)) +:+ ", $fn=32);".

Section generate_scad.
Variables (cols rows : Z) (cell height wall clearance : float).
Variables (grid posts : option (gmap string pyval)).

Definition floor_grid_section (total_x total_y : float) : M unit :=
  if enabled grid then
    let g := default ∅ grid in
    let pitch := dict_get g "pitch" (PyFloat 6.0) in
    let rib := dict_get g "thickness" (PyFloat 1.5) in
    let ribh := dict_get g "height" (PyFloat 2.5) in
    append "module floor_grid() {" ;;;
    append "  union() {" ;;;
    append (rib_loop_x rib pitch ribh wall total_x total_y) ;;;
    append (rib_loop_y rib pitch ribh wall total_x total_y) ;;;
    append "  }" ;;;
    append "}" ;;;
    append "floor_grid();"
  else ret tt.

Definition posts_section : M unit :=
  if enabled posts then
    let p := default ∅ posts in
    let d := dict_get p "diameter" (PyFloat 6.0) in
    let h := dict_get p "height" (PyFloat 4.0) in
    append "module posts() {" ;;;
    append "  union() {" ;;;
    for_each (range cols) (fun x =>
      for_each (range rows) (fun y =>
        xc <- int_mul_float x cell ;;
        let cx := (xc + half cell)%float in
        yc <- int_mul_float y cell ;;
        let cy := (yc + half cell)%float in
        append (post_line d h wall cx cy))) ;;;
    append "  }" ;;;
    append "}" ;;;
    append "posts();"
  else ret tt.

Definition generate_scad_body : M unit :=
  total_x <- int_mul_float cols cell ;;
  total_y <- int_mul_float rows cell ;;
  let pocket_w := (cell - wall - clearance)%float in
  let pocket_h := (cell - wall - clearance)%float in
  append "// Generated Gridfinity SCAD" ;;;
  append ("cell = " +:+ float_repr cell +:+ ";") ;;;
  append ("cols = " +:+ str_int cols +:+ ";") ;;;
  append ("rows = " +:+ str_int rows +:+ ";") ;;;
  append ("height = " +:+ float_repr height +:+ ";") ;;;
  append ("wall = " +:+ float_repr wall +:+ ";") ;;;
  append ("clearance = " +:+ float_repr clearance +:+ ";") ;;;
  append "module pocket() {" ;;;
  append "  translate([wall/2 + clearance/2, wall/2 + clearance/2, 0])" ;;;
  append (pocket_cube pocket_w pocket_h) ;;;
  append "}" ;;;
  append "// outer tray" ;;;
  append "module tray() {" ;;;
  append "  difference() {" ;;;
  append (tray_cube total_x total_y) ;;;
  append (pocket_loop cols rows) ;;;
  append "      translate([x*cell, y*cell, 0]) pocket();" ;;;
  append "  }" ;;;
  append "}" ;;;
  floor_grid_section total_x total_y ;;;
  posts_section ;;;
  append "tray();".

Definition generate_scad : result string := run_joined generate_scad_body.
End generate_scad.

(** *** The lines of [generate_svg] that have fields *)

Definition svg_open (width height : float) : string :=
  let viewbox := "0 0 " +:+ float_repr width +:+ " " +:+ float_repr height in
  "<svg xmlns=" +:+ dq +:+ "http://www.w3.org/2000/svg" +:+ dq
  +:+ " viewBox=" +:+ dq +:+ viewbox +:+ dq +:+ " width=" +:+ dq
  +:+ float_repr width +:+ "px" +:+ dq +:+ " height=" +:+ dq
  +:+ float_repr height +:+ "px" +:+ dq +:+ ">".

Definition svg_style : string :=
  "<style>rect{fill:#f5f5f5;stroke:#333;stroke-width:0.5}</style>".

Definition border_rect (width height : float) : string :=
  "<rect x=" +:+ dq +:+ "0" +:+ dq +:+ " y=" +:+ dq +:+ "0" +:+ dq
  +:+ " width=" +:+ dq +:+ float_repr width +:+ dq +:+ " height="
  +:+ dq +:+ float_repr height +:+ dq +:+ " fill=" +:+ dq +:+ "none"
  +:+ dq +:+ " stroke=" +:+ dq +:+ "#000" +:+ dq +:+ " stroke-width="
  +:+ dq +:+ "1" +:+ dq +:+ "/>".

Definition pocket_rect (px py pocket_w pocket_h : float) : string :=
  "<rect x=" +:+ dq +:+ float_repr px +:+ dq +:+ " y=" +:+ dq
  +:+ float_repr py +:+ dq +:+ " width=" +:+ dq +:+ float_repr pocket_w
  +:+ dq +:+ " height=" +:+ dq +:+ float_repr pocket_h +:+ dq +:+ " />".

Section generate_svg.
Variables (cols rows : Z) (cell wall : float).

Definition generate_svg_body : M unit :=
  width <- int_mul_float cols cell ;;
  height <- int_mul_float rows cell ;;
  append (svg_open width height) ;;;
  append svg_style ;;;
  append (border_rect width height) ;;;
  let inset := half wall in
  let pocket_w := (cell - wall)%float in
  let pocket_h := (cell - wall)%float in
  for_each (range cols) (fun x =>
    for_each (range rows) (fun y =>
      xc <- int_mul_float x cell ;;
      let px := (xc + inset)%float in
      yc <- int_mul_float y cell ;;
      let py := (yc + inset)%float in
      append (pocket_rect px py pocket_w pocket_h))) ;;;
  append "</svg>".

Definition generate_svg : result string := run_joined generate_svg_body.
End generate_svg.

End App.

(** ** The routes

    [request.args] is a map from parameter names to the strings of the
    query. [int(s)] and [float(s)] on a string are the interpreter's
    parsers, taken as parameters: [None] stands for [ValueError]. *)

Module Routes.
Import PyNum PyExec PyVal App Notations.

Inductive response :=
  | Response (body : string) (status : Z)
  | ResponseOk (body : string) (mimetype : string)
  | SendFile (data : string) (mimetype : string) (download_name : string).

(** [int(x)] for a float: truncation; [nan] and the infinities raise. *)
Definition float_to_int (x : float) : result Z :=
  match Prim2SF x with
  | S754_nan => Raise ValueError
  | S754_infinity _ => Raise OverflowError
  | S754_zero _ => Return 0
  | S754_finite s m e =>
      let a := if 0 <=? e then Z.pos m * 2 ^ e else Z.pos m / 2 ^ (- e) in
      Return (if s then - a else a)
  end.

(** [s.replace(old, new)] for a non-empty [old]: the occurrences of [old]
    are replaced from left to right, without overlap. [skip] counts the
    characters of an occurrence still to be dropped. *)
Fixpoint replace_from (old new : string) (skip : nat) (s : string) : string :=
  match s with
  | EmptyString => EmptyString
  | String c s' =>
      match skip with
      | S k => replace_from old new k s'
      | O =>
          if String.prefix old s
          then new +:+ replace_from old new (String.length old - 1) s'
          else String c (replace_from old new O s')
      end
  end.

Definition replace (old new s : string) : string := replace_from old new O s.

Definition try_bind {A B} (r : result A) (k : A -> result B) : result B :=
  match r with
  | Raise e => Raise e
  | Return a => k a
  end.

Notation "x <~ r ;; k" := (try_bind r (fun x => k))
  (at level 100, r at next level, right associativity).

Section routes.
Variable py_int : string -> option Z.
Variable py_float : string -> option float.

Abbreviation query := (gmap string string).

  (** [int(request.args.get(key, default))] with an [int] default. *)
Definition arg_int (args : query) (key : string) (default : Z) : result Z :=
    match args !! key with
    | None => Return default
    | Some s => match py_int s with
                | Some n => Return n
                | None => Raise ValueError
                end
    end.

  (** [float(request.args.get(key, default))] with a [float] default. *)
Definition arg_float (args : query) (key : string) (default : float)
    : result float :=
    match args !! key with
    | None => Return default
    | Some s => match py_float s with
                | Some x => Return x
                | None => Raise ValueError
                end
    end.

  (** [request.args.get(key, default) in ('1','true','yes')] *)
Definition arg_flag (args : query) (key default : string) : bool :=
    let v := match args !! key with Some s => s | None => default end in
    (String.eqb v "1" || String.eqb v "true" || String.eqb v "yes")%bool.

Definition clamp (n : Z) : Z := Z.max 1 (Z.min 80 n).

Definition invalid_parameters : response :=
    Response "Invalid parameters" 400.

Definition circle (cx cy : float) (post_d : float) : string :=
    "<circle cx=" +:+ dq +:+ float_repr cx +:+ dq +:+ " cy=" +:+ dq
    +:+ float_repr cy +:+ dq +:+ " r=" +:+ dq +:+ float_repr (half post_d)
    +:+ dq +:+ " fill=" +:+ dq +:+ "#666" +:+ dq +:+ " opacity=" +:+ dq
    +:+ "0.6" +:+ dq +:+ " />".

  (** The list [insert] of [preview_svg]. *)
Definition circles_body (cols rows : Z) (cell post_d : float) : M unit :=
    for_each (range cols) (fun x =>
      for_each (range rows) (fun y =>
        xc <- int_mul_float x cell ;;
        let cx := (xc + half cell)%float in
        yc <- int_mul_float y cell ;;
        let cy := (yc + half cell)%float in
        append (circle cx cy post_d))).

Record preview_params := {
    pv_cols : Z; pv_rows : Z; pv_cell : float; pv_wall : float;
    pv_post_enable : bool; pv_grid_enable : bool;
    pv_post_d : float; pv_post_h : float;
    pv_grid_pitch : float; pv_grid_thick : float; pv_grid_h : float
  }.

  (** The [try] block of [preview_svg]. *)
Definition preview_parse (args : query) : result preview_params :=
    cols <~ arg_int args "cols" 3 ;;
    rows <~ arg_int args "rows" 2 ;;
    cell <~ arg_float args "cell" 51.0 ;;
    wall <~ arg_float args "wall" 3.0 ;;
    let post_enable := arg_flag args "posts" "0" in
    let grid_enable := arg_flag args "grid" "1" in
    post_d <~ arg_float args "post_d" 6.0 ;;
    post_h <~ arg_float args "post_h" 4.0 ;;
    grid_pitch <~ arg_float args "grid_pitch" 6.0 ;;
    grid_thick <~ arg_float args "grid_thick" 1.5 ;;
    grid_h <~ arg_float args "grid_h" 2.5 ;;
    Return {| pv_cols := clamp cols; pv_rows := clamp rows;
              pv_cell := cell; pv_wall := wall;
              pv_post_enable := post_enable; pv_grid_enable := grid_enable;
              pv_post_d := post_d; pv_post_h := post_h;
              pv_grid_pitch := grid_pitch; pv_grid_thick := grid_thick;
              pv_grid_h := grid_h |}.

  (** What [preview_svg] does with the parsed parameters. *)
Definition preview_render (p : preview_params) : result string :=
    svg <~ generate_svg (pv_cols p) (pv_rows p) (pv_cell p) (pv_wall p) ;;
    if pv_post_enable p then
      insert <~ run_lines (circles_body (pv_cols p) (pv_rows p) (pv_cell p)
                             (pv_post_d p)) ;;
      Return (replace "</svg>"
                (newline +:+ join newline insert +:+ newline +:+ "</svg>") svg)
    else Return svg.

Definition preview_svg (args : query) : result response :=
    match preview_parse args with
    | Raise _ => Return invalid_parameters
    | Return p =>
        svg <~ preview_render p ;;
        Return (ResponseOk svg "image/svg+xml")
    end.

  (** The two dictionary literals of [download_scad]. *)
Definition grid_of_args (args : query) : result (gmap string pyval) :=
    let enable := arg_flag args "grid" "1" in
    pitch <~ arg_float args "grid_pitch" 6.0 ;;
    thickness <~ arg_float args "grid_thick" 1.5 ;;
    height <~ arg_float args "grid_h" 2.5 ;;
    Return (<["enable" := PyBool enable]>
            (<["pitch" := PyFloat pitch]>
             (<["thickness" := PyFloat thickness]>
              (<["height" := PyFloat height]> ∅)))).

Definition posts_of_args (args : query) : result (gmap string pyval) :=
    let enable := arg_flag args "posts" "0" in
    diameter <~ arg_float args "post_d" 6.0 ;;
    height <~ arg_float args "post_h" 4.0 ;;
    Return (<["enable" := PyBool enable]>
            (<["diameter" := PyFloat diameter]>
             (<["height" := PyFloat height]> ∅))).

Record scad_params := {
    sp_cols : Z; sp_rows : Z; sp_cell : float; sp_height : float;
    sp_wall : float
  }.

  (** The [try] block of [download_scad]. *)
Definition scad_parse (args : query) : result scad_params :=
    cols <~ arg_int args "cols" 3 ;;
    rows <~ arg_int args "rows" 2 ;;
    cell <~ arg_float args "cell" 51.0 ;;
    height <~ arg_float args "height" 12.0 ;;
    wall <~ arg_float args "wall" 3.0 ;;
    Return {| sp_cols := clamp cols; sp_rows := clamp rows; sp_cell := cell;
              sp_height := height; sp_wall := wall |}.

Definition download_scad (args : query) : result response :=
    match scad_parse args with
    | Raise _ => Return invalid_parameters
    | Return p =>
        grid <~ grid_of_args args ;;
        posts <~ posts_of_args args ;;
        scad <~ generate_scad (sp_cols p) (sp_rows p) (sp_cell p)
                  (sp_height p) (sp_wall p) 0.2 (Some grid) (Some posts) ;;
        icell <~ float_to_int (sp_cell p) ;;
        let filename := "gridfinity_" +:+ str_int (sp_cols p) +:+ "x"
                        +:+ str_int (sp_rows p) +:+ "_" +:+ str_int icell
                        +:+ "mm.scad" in
        Return (SendFile scad "text/plain" filename)
    end.
End routes.

(** Parsers for a query without numeric parameters: none is consulted. *)
Definition no_int (s : string) : option Z := None.
Definition no_float (s : string) : option float := None.

(** A parser that reads the one number [8.0], for queries that use it. *)
Definition eight_only (s : string) : option float :=
  if String.eqb s "8.0" then Some 8.0%float else None.

End Routes.

(** ** The mesh routes and the form

    [scad_to_stl] writes the text to [model.scad] in a fresh temporary
    directory, runs the [openscad] executable on it and reads [model.stl]
    back. What the machine answers is a parameter: where [shutil.which]
    finds the executable, and what happens inside the [with] block. *)

Module Stl.
Import PyNum PyExec PyVal App Routes Notations.

(** What happened inside the [with] block. [subprocess.run([openscad, '-o',
    stl, scad], check=True, timeout)] returned with exit status 0, leaving
    [model.stl], which was then read, or not leaving it; it raised
    [CalledProcessError], printed as [error]; it raised [TimeoutExpired];
    or an exception for which the function has no handler was raised: by
    the temporary directory, by writing [model.scad], by starting the
    process (the file found on the path cannot be executed, say) or by
    reading [model.stl]. *)
Inductive run_outcome :=
  | Exited (stl : option string)
  | Failed (error : string)
  | TimedOut
  | Unhandled (e : pyexn).

Record system := {
  which_openscad : option string;
  run_openscad : string -> string -> Z -> run_outcome
}.

(** [scad_to_stl] returns the bytes, raises [RuntimeError] with a message,
    or lets an exception it does not handle pass. *)
Inductive stl_result :=
  | RuntimeError (message : string)
  | StlData (data : string)
  | Escapes (e : pyexn).

Definition scad_to_stl (sys : system) (scad_text : string) (timeout : Z)
  : stl_result :=
  match which_openscad sys with
  | None =>
      RuntimeError
        "OpenSCAD CLI not found. Install OpenSCAD and ensure `openscad` is on PATH"
  | Some openscad_path =>
      if String.eqb openscad_path "" then
        RuntimeError
          "OpenSCAD CLI not found. Install OpenSCAD and ensure `openscad` is on PATH"
      else
        match run_openscad sys openscad_path scad_text timeout with
        | Failed e => RuntimeError ("OpenSCAD failed: " +:+ e)
        | TimedOut => RuntimeError "OpenSCAD timeout"
        | Exited None => RuntimeError "OpenSCAD did not produce an STL"
        | Exited (Some data) => StlData data
        | Unhandled e => Escapes e
        end
  end.

(** The parameters [index] hands to the template. *)
Record form_params := {
  fp_cols : Z; fp_rows : Z; fp_cell : float; fp_height : float;
  fp_wall : float
}.

(** What a view returns. *)
Inductive reply :=
  | Plain (r : response)
  | Inline (data : string) (mimetype : string)
  | Template (name : string) (params : form_params).

Definition stl_mimetype : string := "application/vnd.ms-pki.stl".

Section stl_routes.
Variable py_int : string -> option Z.
Variable py_float : string -> option float.
Variable sys : system.

(** [index]: no [try], no clamp. *)
Definition index (args : gmap string string) : result reply :=
  cols <~ arg_int py_int args "cols" 3 ;;
  rows <~ arg_int py_int args "rows" 2 ;;
  cell <~ arg_float py_float args "cell" 51.0 ;;
  height <~ arg_float py_float args "height" 12.0 ;;
  wall <~ arg_float py_float args "wall" 3.0 ;;
  Return (Template "index.html"
            {| fp_cols := cols; fp_rows := rows; fp_cell := cell;
               fp_height := height; fp_wall := wall |}).

(** [model_stl]: the same [try] block and dictionaries as [download_scad],
    then the conversion with its default timeout; [except RuntimeError]
    handles that exception only. *)
Definition model_stl (args : gmap string string) : result reply :=
  match scad_parse py_int py_float args with
  | Raise _ => Return (Plain invalid_parameters)
  | Return p =>
      grid <~ grid_of_args py_float args ;;
      posts <~ posts_of_args py_float args ;;
      scad <~ generate_scad (sp_cols p) (sp_rows p) (sp_cell p)
                (sp_height p) (sp_wall p) 0.2 (Some grid) (Some posts) ;;
      match scad_to_stl sys scad 30 with
      | RuntimeError e => Return (Plain (Response e 500))
      | StlData stl_bytes => Return (Inline stl_bytes stl_mimetype)
      | Escapes e => Raise e
      end
  end.

(** [download_stl]: as [model_stl], with the file name computed after the
    conversion. *)
Definition download_stl (args : gmap string string) : result reply :=
  match scad_parse py_int py_float args with
  | Raise _ => Return (Plain invalid_parameters)
  | Return p =>
      grid <~ grid_of_args py_float args ;;
      posts <~ posts_of_args py_float args ;;
      scad <~ generate_scad (sp_cols p) (sp_rows p) (sp_cell p)
                (sp_height p) (sp_wall p) 0.2 (Some grid) (Some posts) ;;
      match scad_to_stl sys scad 30 with
      | RuntimeError e => Return (Plain (Response e 500))
      | StlData stl_bytes =>
          icell <~ float_to_int (sp_cell p) ;;
          let filename := "gridfinity_" +:+ str_int (sp_cols p) +:+ "x"
                          +:+ str_int (sp_rows p) +:+ "_" +:+ str_int icell
                          +:+ "mm.stl" in
          Return (Plain (SendFile stl_bytes stl_mimetype filename))
      | Escapes e => Raise e
      end
  end.
End stl_routes.

(** The optional numbers of a query: the three model-text routes read
    them after their [try] block, the preview inside it. *)
Definition optional_keys : list string :=
  [ "grid_pitch"; "grid_thick"; "grid_h"; "post_d"; "post_h" ].

(** A parser that reads the one word [nan], for queries that use it. *)
Definition nan_only (s : string) : option float :=
  if String.eqb s "nan" then Some nan else None.

(** A parser that reads the one number [1000]. *)
Definition thousand_only (s : string) : option Z :=
  if String.eqb s "1000" then Some 1000 else None.

(** A machine without OpenSCAD, and one on which it writes a mesh. *)
Definition no_openscad : system :=
  {| which_openscad := None; run_openscad := fun _ _ _ => TimedOut |}.

Definition working_openscad : system :=
  {| which_openscad := Some "/usr/bin/openscad";
     run_openscad := fun _ _ _ => Exited (Some "solid") |}.

(** A machine on which the file found on the path cannot be executed. *)
Definition broken_openscad : system :=
  {| which_openscad := Some "/usr/local/bin/openscad";
     run_openscad := fun _ _ _ => Unhandled OSError |}.

End Stl.

(** ** How OpenSCAD reads the emitted loops

    [generate_scad] computes no pocket or rib position itself: it prints
    [for] loops over ranges and leaves the iteration to OpenSCAD. These
    definitions give the ranges the meaning the OpenSCAD manual gives
    them, on the exact values of the numbers that are printed. *)

Module Scad.

(** [[lo:hi]]: [lo], [lo+1], ... up to [hi], nothing when [hi < lo]. *)
Definition int_range (lo hi : Z) : list Z := seqZ lo (hi - lo + 1).

(** [for (x = xs) for (y = ys)]: the outer variable changes slowest. *)
Definition nested_for {A B} (xs : list A) (ys : list B) : list (A * B) :=
  flat_map (fun x => map (pair x) ys) xs.





(** The corner of the pocket of cell [(x, y)]: [translate([x*cell, y*cell, 0])]
    applied to [pocket()], whose cube is itself translated by
    [wall/2 + clearance/2] along each axis, in binary64 as OpenSCAD
    evaluates the expressions. *)
Definition pocket_corner (cell wall clearance : float) (c : Z * Z)
  : float * float :=
  let inset := (wall / 2 + clearance / 2)%float in
  ((PyNum.Z2float (fst c) * cell + inset)%float,
   (PyNum.Z2float (snd c) * cell + inset)%float).



End Scad.

(** ** Text predicates *)

Module Text.

Fixpoint all_chars (P : ascii -> bool) (s : string) : bool :=
  match s with
  | EmptyString => true
  | String c s' => P c && all_chars P s'
  end.

(** The characters of [str(n)] for an [int]. *)
Definition digit_char (c : ascii) : bool :=
  existsb (Ascii.eqb c) (list_ascii_of_string "0123456789-").

(** The end of the opening tag, after the last attribute. *)
Definition tag_end : string := Eval cbv in PyExec.dq +:+ ">".

(** The closing tag of the preview document. *)
Definition closing : string := "</svg>".

(** The characters [str] produces for an [int], a [float] or a [bool]. *)
Definition data_char (c : ascii) : bool :=
  existsb (Ascii.eqb c) (list_ascii_of_string "0123456789.e+-infaTruFls").

(** [no_pair c1 c2 prev s]: [c1] is nowhere in [s] directly followed by
    [c2], and [s] does not begin with [c2] when [prev] is set. *)
Fixpoint no_pair (c1 c2 : ascii) (prev : bool) (s : string) : bool :=
  match s with
  | EmptyString => true
  | String c s' =>
      if prev && Ascii.eqb c c2 then false
      else no_pair c1 c2 (Ascii.eqb c c1) s'
  end.

(** Closed under concatenation: no pair inside, and no [c2] in front. *)
Definition safe (c1 c2 : ascii) (s : string) : Prop :=
  no_pair c1 c2 true s = true.

(** The number of occurrences of a character. *)
Fixpoint count_char (c : ascii) (s : string) : nat :=
  match s with
  | EmptyString => O
  | String c' s' => (if Ascii.eqb c' c then 1 else 0) + count_char c s'
  end.

Definition contains (pat s : string) : Prop :=
  exists a b, s = a +:+ pat +:+ b.

Definition ends_with (suffix s : string) : Prop :=
  exists a, s = a +:+ suffix.

End Text.

(** ** The documents, line by line *)

Module Lines.
Import PyNum PyExec PyVal App.

(** An integer the interpreter can convert to a float. *)
Definition float_range (n : Z) : Prop := Z.abs n < float_overflow.

(** The cells in the order of [for x in range(cols): for y in range(rows)]. *)
Definition cells (cols rows : Z) : list (Z * Z) :=
  flat_map (fun x => map (pair x) (range rows)) (range cols).

(** Row-major order: [x] changes fastest. *)
Definition row_major (cols rows : Z) : list (Z * Z) :=
  flat_map (fun y => map (fun x => (x, y)) (range cols)) (range rows).

Section scad_lines.
Variables (cols rows : Z) (cell height wall clearance : float).
Variables (grid posts : option (gmap string pyval)).

Definition total_x : float := (Z2float cols * cell)%float.
Definition total_y : float := (Z2float rows * cell)%float.

Definition scad_header : list string :=
  [ "// Generated Gridfinity SCAD";
    "cell = " +:+ float_repr cell +:+ ";";
    "cols = " +:+ str_int cols +:+ ";";
    "rows = " +:+ str_int rows +:+ ";";
    "height = " +:+ float_repr height +:+ ";";
    "wall = " +:+ float_repr wall +:+ ";";
    "clearance = " +:+ float_repr clearance +:+ ";";
    "module pocket() {";
    "  translate([wall/2 + clearance/2, wall/2 + clearance/2, 0])";
    pocket_cube (cell - wall - clearance) (cell - wall - clearance);
    "}";
    "// outer tray";
    "module tray() {";
    "  difference() {";
    tray_cube total_x total_y;
    pocket_loop cols rows;
    "      translate([x*cell, y*cell, 0]) pocket();";
    "  }";
    "}" ].

Definition grid_pitch : pyval := dict_get (default ∅ grid) "pitch" (PyFloat 6.0).
Definition grid_rib : pyval := dict_get (default ∅ grid) "thickness" (PyFloat 1.5).
Definition grid_ribh : pyval := dict_get (default ∅ grid) "height" (PyFloat 2.5).

Definition floor_grid_lines : list string :=
  if enabled grid then
    [ "module floor_grid() {";
      "  union() {";
      rib_loop_x grid_rib grid_pitch grid_ribh wall total_x total_y;
      rib_loop_y grid_rib grid_pitch grid_ribh wall total_x total_y;
      "  }";
      "}";
      "floor_grid();" ]
  else [].

Definition post_d : pyval := dict_get (default ∅ posts) "diameter" (PyFloat 6.0).
Definition post_h : pyval := dict_get (default ∅ posts) "height" (PyFloat 4.0).

(** The centre [(x*cell + cell/2, y*cell + cell/2)] of a cell. *)
Definition cell_center (c : Z * Z) : float * float :=
  ((Z2float (fst c) * cell + half cell)%float,
   (Z2float (snd c) * cell + half cell)%float).

Definition cylinder (c : Z * Z) : string :=
  post_line post_d post_h wall (fst (cell_center c)) (snd (cell_center c)).

Definition posts_lines : list string :=
  if enabled posts then
    [ "module posts() {"; "  union() {" ]
    ++ map cylinder (cells cols rows)
    ++ [ "  }"; "}"; "posts();" ]
  else [].

Definition scad_lines : list string :=
  scad_header ++ floor_grid_lines ++ posts_lines ++ [ "tray();" ].

End scad_lines.

Section svg_lines.
Variables (cols rows : Z) (cell wall : float).

(** The corner [(x*cell + wall/2, y*cell + wall/2)] of a preview pocket. *)
Definition preview_corner (c : Z * Z) : float * float :=
  ((Z2float (fst c) * cell + half wall)%float,
   (Z2float (snd c) * cell + half wall)%float).

Definition preview_pocket (c : Z * Z) : string :=
  pocket_rect (fst (preview_corner c)) (snd (preview_corner c))
              (cell - wall) (cell - wall).

Definition svg_head : list string :=
  [ svg_open (total_x cols cell) (total_y rows cell);
    svg_style;
    border_rect (total_x cols cell) (total_y rows cell) ].

Definition svg_lines : list string :=
  svg_head ++ map preview_pocket (cells cols rows) ++ [ "</svg>" ].

End svg_lines.

(** The preview without its closing tag. *)
Definition svg_body (cols rows : Z) (cell wall : float) : list string :=
  (svg_head cols rows cell ++ map (preview_pocket cell wall) (cells cols rows))%list.

(** The document sent for a download request without any parameter. *)
Definition default_download : string :=
  join newline
    [ "// Generated Gridfinity SCAD"; "cell = 51.0;"; "cols = 3;";
      "rows = 2;"; "height = 12.0;"; "wall = 3.0;"; "clearance = 0.2;";
      "module pocket() {";
      "  translate([wall/2 + clearance/2, wall/2 + clearance/2, 0])";
      "    cube([47.8, 47.8, height], center=false);"; "}";
      "// outer tray"; "module tray() {"; "  difference() {";
      "    cube([153.0, 102.0, height + wall], center=false);";
      "    for (x = [0:2]) for (y = [0:1])";
      "      translate([x*cell, y*cell, 0]) pocket();"; "  }"; "}";
      "module floor_grid() {"; "  union() {";
      "    for (x = [0.75:6.0:152.25]) translate([x, 0, 3.0]) cube([1.5, 102.0, 2.5], center=false);";
      "    for (y = [0.75:6.0:101.25]) translate([0, y, 3.0]) cube([153.0, 1.5, 2.5], center=false);";
      "  }"; "}"; "floor_grid();"; "tray();" ].

(** The markers [preview_svg] builds. *)
Definition marker (cell post_d : float) (c : Z * Z) : string :=
  Routes.circle (fst (cell_center cell c)) (snd (cell_center cell c)) post_d.

End Lines.

(** * Properties *)

(** ** What the printed numbers are made of *)

Module TextFacts.
Import PyNum PyVal Text.

Lemma all_chars_app P s t :
  all_chars P (s +:+ t) = all_chars P s && all_chars P t.
Proof.
  induction s as [|c s IH]; simpl; [reflexivity|].
  rewrite IH. apply andb_assoc.
Qed.

Lemma all_chars_weaken (P Q : ascii -> bool) s :
  (forall c, P c = true -> Q c = true) ->
  all_chars P s = true -> all_chars Q s = true.
Proof.
  intros HPQ. induction s as [|c s IH]; simpl; [reflexivity|].
  intros [Hc Hs]%andb_true_iff. rewrite (HPQ _ Hc), (IH Hs). reflexivity.
Qed.

Lemma all_chars_substring P s : forall n m,
  all_chars P s = true -> all_chars P (substring n m s) = true.
Proof.
  induction s as [|c s IH]; intros n m H.
  - destruct n, m; reflexivity.
  - simpl in H. apply andb_true_iff in H as [Hc Hs].
    destruct n as [|n]; simpl.
    + destruct m as [|m]; simpl; [reflexivity|].
      rewrite Hc. simpl. apply IH, Hs.
    + apply IH, Hs.
Qed.

Lemma all_chars_of_list P l :
  all_chars P (string_of_list_ascii l) = forallb P l.
Proof. induction l as [|c l IH]; simpl; [reflexivity|]. rewrite IH. reflexivity. Qed.

Lemma all_chars_to_list P s :
  forallb P (list_ascii_of_string s) = all_chars P s.
Proof. induction s as [|c s IH]; simpl; [reflexivity|]. rewrite IH. reflexivity. Qed.

Lemma all_chars_zeros P n : P "0"%char = true -> all_chars P (zeros n) = true.
Proof. intros H. induction n as [|n IH]; simpl; [reflexivity|]. rewrite H, IH. reflexivity. Qed.

Lemma forallb_strip_zeros P l :
  forallb P l = true -> forallb P (strip_zeros_rev l) = true.
Proof.
  induction l as [|c l IH]; simpl; [reflexivity|].
  intros H. pose proof H as H'. apply andb_true_iff in H' as [Hc Hl].
  destruct c as [[|] [|] [|] [|] [|] [|] [|] [|]]; simpl; try (rewrite Hc, Hl; reflexivity).
  apply IH, Hl.
Qed.

Lemma forallb_rev_eq (P : ascii -> bool) l : forallb P (rev l) = forallb P l.
Proof.
  induction l as [|c l IH]; simpl; [reflexivity|].
  rewrite forallb_app, IH. simpl. rewrite andb_true_r. apply andb_comm.
Qed.

Lemma all_chars_strip P s :
  all_chars P s = true -> all_chars P (strip_trailing_zeros s) = true.
Proof.
  intros H. unfold strip_trailing_zeros.
  rewrite all_chars_of_list, forallb_rev_eq. apply forallb_strip_zeros.
  rewrite forallb_rev_eq, all_chars_to_list. exact H.
Qed.

Lemma uint_chars d : all_chars digit_char (NilEmpty.string_of_uint d) = true.
Proof. induction d; simpl; auto. Qed.

Lemma str_int_digits z : all_chars digit_char (str_int z) = true.
Proof.
  unfold str_int, NilZero.string_of_int.
  destruct (Z.to_int z) as [d|d]; simpl.
  - unfold NilZero.string_of_uint. destruct d; try reflexivity; apply uint_chars.
  - unfold NilZero.string_of_uint. destruct d; try reflexivity; apply uint_chars.
Qed.

Lemma digit_data c : digit_char c = true -> data_char c = true.
Proof.
  destruct c as [[|] [|] [|] [|] [|] [|] [|] [|]]; simpl; intros H;
    first [reflexivity | discriminate H].
Qed.

Lemma str_int_chars z : all_chars data_char (str_int z) = true.
Proof. eapply all_chars_weaken; [apply digit_data | apply str_int_digits]. Qed.

Lemma float_digits_chars m e :
  all_chars data_char (fst (float_digits m e)) = true.
Proof.
  unfold float_digits.
  destruct (shortest _ _ _ _) as [d n]. simpl.
  apply all_chars_strip, str_int_chars.
Qed.

Lemma str_exponent_chars x : all_chars data_char (str_exponent x) = true.
Proof.
  unfold str_exponent. rewrite !all_chars_app, str_int_chars.
  destruct (x <? 0), (Z.abs x <? 10); reflexivity.
Qed.

Lemma format_short_chars ds decpt :
  all_chars data_char ds = true ->
  all_chars data_char (format_short ds decpt) = true.
Proof.
  intros H. unfold format_short, take_str, drop_str.
  repeat match goal with |- context [if ?b then _ else _] => destruct b end;
    rewrite ?all_chars_app, ?str_exponent_chars, ?H,
      ?(all_chars_substring _ _ _ _ H), ?all_chars_zeros by reflexivity;
    reflexivity.
Qed.

Lemma float_repr_chars x : all_chars data_char (float_repr x) = true.
Proof.
  unfold float_repr. destruct (Prim2SF x) as [s|s| |s m e].
  - destruct s; reflexivity.
  - destruct s; reflexivity.
  - reflexivity.
  - pose proof (float_digits_chars m e) as H.
    destruct (float_digits m e) as [ds decpt]. simpl in H.
    rewrite all_chars_app, (format_short_chars _ _ H).
    destruct s; reflexivity.
Qed.

Lemma str_val_chars v : all_chars data_char (str_val v) = true.
Proof. destruct v as [[|]|x]; simpl; try reflexivity. apply float_repr_chars. Qed.
End TextFacts.

(** ** Two-character patterns and [replace] *)

Module PairFacts.
Import PyNum PyExec PyVal Text TextFacts Routes.

Lemma append_cons c s t : String c s +:+ t = String c (s +:+ t).
Proof. reflexivity. Qed.

Lemma append_empty_r s : s +:+ "" = s.
Proof.
  induction s as [|c s IH]; [reflexivity|].
  rewrite append_cons, IH. reflexivity.
Qed.

Lemma append_assoc s t u : (s +:+ t) +:+ u = s +:+ (t +:+ u).
Proof.
  induction s as [|c s IH]; [reflexivity|].
  rewrite !append_cons, IH. reflexivity.
Qed.

Section pair.
Variables c1 c2 : ascii.

Lemma no_pair_any_prev p s : safe c1 c2 s -> no_pair c1 c2 p s = true.
Proof.
  unfold safe. destruct p; [auto|].
  destruct s as [|c s]; simpl; [auto|].
  destruct (Ascii.eqb c c2); [discriminate | auto].
Qed.

Lemma no_pair_drop_prev p s :
  no_pair c1 c2 p s = true -> no_pair c1 c2 false s = true.
Proof.
  destruct p; [|auto]. destruct s as [|c s]; simpl; [auto|].
  destruct (Ascii.eqb c c2); [discriminate | auto].
Qed.

Lemma no_pair_app p s t :
  no_pair c1 c2 p s = true -> safe c1 c2 t -> no_pair c1 c2 p (s +:+ t) = true.
Proof.
  revert p. induction s as [|c s IH]; intros p Hs Ht.
  - apply no_pair_any_prev, Ht.
  - rewrite append_cons. simpl in *.
    destruct (p && Ascii.eqb c c2); [discriminate|]. apply IH; assumption.
Qed.

Lemma safe_app s t : safe c1 c2 s -> safe c1 c2 t -> safe c1 c2 (s +:+ t).
Proof. intros Hs Ht. apply no_pair_app; assumption. Qed.

Lemma data_char_neq c c' : data_char c = true -> data_char c' = false ->
  Ascii.eqb c c' = false.
Proof.
  intros Hc Hc'. destruct (Ascii.eqb c c') eqn:E; [|reflexivity].
  apply Ascii.eqb_eq in E. subst. congruence.
Qed.

Lemma safe_data d :
  data_char c1 = false -> data_char c2 = false ->
  all_chars data_char d = true -> safe c1 c2 d.
Proof.
  intros H1 H2 H. unfold safe.
  enough (forall p, no_pair c1 c2 p d = true) as Hp by apply Hp.
  induction d as [|c d IH]; simpl; intros p; [reflexivity|].
  simpl in H. apply andb_true_iff in H as [Hc Hd].
  rewrite (data_char_neq _ _ Hc H2), andb_false_r. apply IH, Hd.
Qed.

Lemma safe_join sep l :
  safe c1 c2 sep -> Forall (safe c1 c2) l -> safe c1 c2 (join sep l).
Proof.
  intros Hsep. induction l as [|s l IH]; intros Hl.
  - reflexivity.
  - inversion Hl as [|? ? Hs Hl']; subst.
    destruct l as [|s' l]; [exact Hs|].
    change (join sep (s :: s' :: l)) with (s +:+ sep +:+ join sep (s' :: l)).
    apply safe_app; [exact Hs|]. apply safe_app; [exact Hsep|]. apply IH, Hl'.
Qed.

Lemma pair_found p a rest :
  no_pair c1 c2 p (a +:+ String c1 (String c2 rest)) = false.
Proof.
  revert p. induction a as [|c a IH]; intros p.
  - change ("" +:+ String c1 (String c2 rest)) with (String c1 (String c2 rest)).
    simpl. destruct (p && Ascii.eqb c1 c2); [reflexivity|].
    rewrite !Ascii.eqb_refl. reflexivity.
  - rewrite append_cons. simpl.
    destruct (p && Ascii.eqb c c2); [reflexivity | apply IH].
Qed.

Lemma safe_not_contains s rest :
  safe c1 c2 s -> ~ contains (String c1 (String c2 rest)) s.
Proof.
  intros Hs (a & b & ->). unfold safe in Hs.
  change (String c1 (String c2 rest) +:+ b)
    with (String c1 (String c2 (rest +:+ b))) in Hs.
  rewrite pair_found in Hs. discriminate.
Qed.
End pair.

Lemma prefix_closing_false c a :
  no_pair "g" ">" false (String c a) = true ->
  String.prefix closing (String c a +:+ closing) = false.
Proof.
  intros H. destruct (String.prefix _ _) eqn:E; [exfalso|reflexivity].
  apply String.prefix_correct in E.
  destruct a as [|c1 [|c2 [|c3 [|c4 [|c5 a]]]]]; cbv in E;
    try discriminate E.
  injection E as -> -> -> -> -> ->. cbv in H. discriminate H.
Qed.

Lemma replace_closing a new :
  no_pair "g" ">" false a = true ->
  replace closing new (a +:+ closing) = a +:+ new.
Proof.
  unfold replace. induction a as [|c a IH]; intros H.
  - change (replace_from closing new 0 ("" +:+ closing)) with (new +:+ "").
    rewrite append_empty_r. reflexivity.
  - change (String c a +:+ closing) with (String c (a +:+ closing)).
    cbn [replace_from].
    change (String c (a +:+ closing)) with (String c a +:+ closing) at 1.
    rewrite (prefix_closing_false _ _ H).
    change (String c a +:+ new) with (String c (a +:+ new)). f_equal.
    apply IH. simpl in H. eapply no_pair_drop_prev, H.
Qed.
End PairFacts.

(** ** Running the loops *)

Module RunFacts.
Import PyNum PyExec PyVal App Routes Lines Notations.

Lemma emits_ret : emits (ret tt) [].
Proof. intros buf. unfold ret. rewrite app_nil_r. reflexivity. Qed.

Lemma emits_append s : emits (append s) [s].
Proof. intros buf. reflexivity. Qed.

Lemma emits_seq m k l1 l2 :
  emits m l1 -> emits k l2 -> emits (m ;;; k) (l1 ++ l2).
Proof.
  intros Hm Hk buf. unfold bind. rewrite Hm, Hk, app_assoc. reflexivity.
Qed.

Lemma emits_eq m l1 l2 : l1 = l2 -> emits m l1 -> emits m l2.
Proof. intros ->. auto. Qed.

Lemma float_range_convert n : float_range n -> int_to_float n = Some (Z2float n).
Proof.
  unfold float_range, int_to_float. intros H.
  destruct (Z.ltb_spec (Z.abs n) float_overflow); [reflexivity | lia].
Qed.

Lemma not_float_range_convert n : ~ float_range n -> int_to_float n = None.
Proof.
  unfold float_range, int_to_float. intros H.
  destruct (Z.ltb_spec (Z.abs n) float_overflow); [contradiction | reflexivity].
Qed.

Lemma emits_int_mul n x (k : float -> M unit) ls :
  float_range n -> emits (k (Z2float n * x)%float) ls ->
  emits (bind (int_mul_float n x) k) ls.
Proof.
  intros Hn Hk buf. unfold bind, int_mul_float.
  rewrite (float_range_convert _ Hn). apply Hk.
Qed.

Lemma range_float_range n x : float_range n -> x ∈ range n -> float_range x.
Proof.
  unfold float_range, range. intros Hn Hx.
  apply elem_of_seqZ in Hx. lia.
Qed.

Lemma emits_for_each {A} (l : list A) (body : A -> M unit) (f : A -> list string) :
  (forall a, a ∈ l -> emits (body a) (f a)) ->
  emits (for_each l body) (concat (map f l)).
Proof.
  induction l as [|a l IH]; intros H; simpl.
  - apply emits_ret.
  - apply emits_seq.
    + apply H. left.
    + apply IH. intros b Hb. apply H. right. exact Hb.
Qed.

Lemma concat_cells {B} (g : Z * Z -> B) cols rows :
  concat (map (fun x => map (fun y => g (x, y)) (range rows)) (range cols))
  = map g (cells cols rows).
Proof.
  unfold cells. induction (range cols) as [|x xs IH]; simpl; [reflexivity|].
  rewrite IH, map_app, map_map. reflexivity.
Qed.

(** The double loop over the cells, shared by the posts, the preview
    pockets and the preview markers. *)
Lemma emits_cell_loop cols rows cell (g : float -> float -> string) :
  float_range cols -> float_range rows ->
  emits (for_each (range cols) (fun x =>
           for_each (range rows) (fun y =>
             xc <- int_mul_float x cell ;;
             yc <- int_mul_float y cell ;;
             append (g xc yc))))
        (map (fun c => g (Z2float (fst c) * cell)%float
                         (Z2float (snd c) * cell)%float)
             (cells cols rows)).
Proof.
  intros Hc Hr.
  rewrite <- (concat_cells (fun c => g (Z2float (fst c) * cell)%float
                                      (Z2float (snd c) * cell)%float)).
  apply emits_for_each. intros x Hx.
  apply emits_eq with
    (l1 := concat (map (fun y => [g (Z2float x * cell)%float
                                    (Z2float y * cell)%float]) (range rows))).
  { induction (range rows) as [|y ys IH]; simpl; [reflexivity|].
    rewrite IH. reflexivity. }
  apply emits_for_each.
  - intros y Hy.
    apply emits_int_mul; [apply (range_float_range cols); assumption|].
    apply emits_int_mul; [apply (range_float_range rows); assumption|].
    apply emits_append.
Qed.

Lemma cells_length cols rows :
  length (cells cols rows) = (Z.to_nat cols * Z.to_nat rows)%nat.
Proof.
  unfold cells, range.
  rewrite <- (length_seqZ 0 cols).
  induction (seqZ 0 cols) as [|x xs IH]; simpl; [reflexivity|].
  rewrite length_app, length_map, length_seqZ, IH. reflexivity.
Qed.

Lemma elem_of_cells cols rows x y :
  (x, y) ∈ cells cols rows <-> (0 <= x < cols /\ 0 <= y < rows).
Proof.
  unfold cells, range. rewrite list_elem_of_In, in_flat_map. split.
  - intros (x' & Hx' & Hin). apply in_map_iff in Hin as (y' & [= <- <-] & Hy').
    rewrite <- list_elem_of_In, elem_of_seqZ in Hx'.
    rewrite <- list_elem_of_In, elem_of_seqZ in Hy'. lia.
  - intros [Hx Hy]. exists x. split.
    + rewrite <- list_elem_of_In, elem_of_seqZ. lia.
    + apply in_map. rewrite <- list_elem_of_In, elem_of_seqZ. lia.
Qed.

Lemma float_range_bounds n : 0 < n -> n < float_overflow -> float_range n.
Proof. unfold float_range. lia. Qed.

Lemma float_range_small n : -80 <= n <= 80 -> float_range n.
Proof.
  unfold float_range. intros H.
  assert (81 <= float_overflow) by (vm_compute; discriminate). lia.
Qed.

End RunFacts.

(** ** The generators return their documents *)

Module GenFacts.
Import PyNum PyExec PyVal App Routes Lines Notations RunFacts.

Ltac emit_appends := repeat (eapply emits_seq; [apply emits_append|]).

Lemma emits_floor_grid cols rows cell wall grid :
  emits (floor_grid_section wall grid (total_x cols cell) (total_y rows cell))
        (floor_grid_lines cols rows cell wall grid).
Proof.
  unfold floor_grid_section, floor_grid_lines.
  destruct (enabled grid); [|apply emits_ret].
  eapply emits_eq; cycle 1.
  { emit_appends. apply emits_append. }
  reflexivity.
Qed.

Lemma emits_posts cols rows cell wall posts :
  float_range cols -> float_range rows ->
  emits (posts_section cols rows cell wall posts)
        (posts_lines cols rows cell wall posts).
Proof.
  intros Hc Hr. unfold posts_section, posts_lines.
  destruct (enabled posts); [|apply emits_ret].
  eapply emits_eq; cycle 1.
  { emit_appends. eapply emits_seq.
    - apply (emits_cell_loop cols rows cell
               (fun xc yc => post_line (post_d posts) (post_h posts) wall
                               (xc + half cell) (yc + half cell)) Hc Hr).
    - emit_appends. apply emits_append. }
  reflexivity.
Qed.

Lemma emits_scad cols rows cell height wall clearance grid posts :
  float_range cols -> float_range rows ->
  emits (generate_scad_body cols rows cell height wall clearance grid posts)
        (scad_lines cols rows cell height wall clearance grid posts).
Proof.
  intros Hc Hr. unfold generate_scad_body.
  apply emits_int_mul; [exact Hc|]. apply emits_int_mul; [exact Hr|].
  eapply emits_eq; cycle 1.
  { emit_appends.
    eapply emits_seq; [apply emits_floor_grid|].
    eapply emits_seq; [apply emits_posts; assumption|].
    apply emits_append. }
  reflexivity.
Qed.

Lemma emits_svg cols rows cell wall :
  float_range cols -> float_range rows ->
  emits (generate_svg_body cols rows cell wall) (svg_lines cols rows cell wall).
Proof.
  intros Hc Hr. unfold generate_svg_body.
  apply emits_int_mul; [exact Hc|]. apply emits_int_mul; [exact Hr|].
  eapply emits_eq; cycle 1.
  { emit_appends. eapply emits_seq.
    - apply (emits_cell_loop cols rows cell
               (fun xc yc => pocket_rect (xc + half wall) (yc + half wall)
                               (cell - wall) (cell - wall)) Hc Hr).
    - apply emits_append. }
  reflexivity.
Qed.

Lemma emits_circles cols rows cell d :
  float_range cols -> float_range rows ->
  emits (circles_body cols rows cell d) (map (marker cell d) (cells cols rows)).
Proof.
  intros Hc Hr.
  apply (emits_cell_loop cols rows cell
           (fun xc yc => circle (xc + half cell) (yc + half cell) d) Hc Hr).
Qed.

Lemma run_lines_emits m ls : emits m ls -> run_lines m = Return ls.
Proof. intros H. unfold run_lines. rewrite H. reflexivity. Qed.

Lemma run_joined_emits m ls : emits m ls -> run_joined m = Return (join newline ls).
Proof. intros H. unfold run_joined. rewrite (run_lines_emits _ _ H). reflexivity. Qed.

Lemma generate_scad_lines cols rows cell height wall clearance grid posts :
  float_range cols -> float_range rows ->
  generate_scad cols rows cell height wall clearance grid posts
  = Return (join newline
              (scad_lines cols rows cell height wall clearance grid posts)).
Proof. intros Hc Hr. apply run_joined_emits, emits_scad; assumption. Qed.

Lemma generate_svg_lines cols rows cell wall :
  float_range cols -> float_range rows ->
  generate_svg cols rows cell wall
  = Return (join newline (svg_lines cols rows cell wall)).
Proof. intros Hc Hr. apply run_joined_emits, emits_svg; assumption. Qed.

Lemma generate_scad_overflow cols rows cell height wall clearance grid posts :
  ~ (float_range cols /\ float_range rows) ->
  generate_scad cols rows cell height wall clearance grid posts
  = Raise OverflowError.
Proof.
  intros H. unfold generate_scad, run_joined, run_lines, generate_scad_body,
    bind, int_mul_float.
  destruct (decide (float_range cols)) as [Hc|Hc].
  - rewrite (float_range_convert _ Hc).
    rewrite (not_float_range_convert rows) by tauto. reflexivity.
  - rewrite (not_float_range_convert _ Hc). reflexivity.
Qed.

Lemma generate_svg_overflow cols rows cell wall :
  ~ (float_range cols /\ float_range rows) ->
  generate_svg cols rows cell wall = Raise OverflowError.
Proof.
  intros H. unfold generate_svg, run_joined, run_lines, generate_svg_body,
    bind, int_mul_float.
  destruct (decide (float_range cols)) as [Hc|Hc].
  - rewrite (float_range_convert _ Hc).
    rewrite (not_float_range_convert rows) by tauto. reflexivity.
  - rewrite (not_float_range_convert _ Hc). reflexivity.
Qed.

Lemma scad_body_overflow cols rows cell height wall clearance grid posts buf :
  ~ (float_range cols /\ float_range rows) ->
  generate_scad_body cols rows cell height wall clearance grid posts buf
  = Raise OverflowError.
Proof.
  intros H. unfold generate_scad_body, bind, int_mul_float.
  destruct (decide (float_range cols)) as [Hc|Hc].
  - rewrite (float_range_convert _ Hc).
    rewrite (not_float_range_convert rows) by tauto. reflexivity.
  - rewrite (not_float_range_convert _ Hc). reflexivity.
Qed.

Lemma svg_body_overflow cols rows cell wall buf :
  ~ (float_range cols /\ float_range rows) ->
  generate_svg_body cols rows cell wall buf = Raise OverflowError.
Proof.
  intros H. unfold generate_svg_body, bind, int_mul_float.
  destruct (decide (float_range cols)) as [Hc|Hc].
  - rewrite (float_range_convert _ Hc).
    rewrite (not_float_range_convert rows) by tauto. reflexivity.
  - rewrite (not_float_range_convert _ Hc). reflexivity.
Qed.

End GenFacts.

(** ** The cells of the grid *)

Module CellFacts.
Import PyNum PyExec PyVal App Routes Lines Text.
Import TextFacts PairFacts RunFacts GenFacts.

Lemma nested_for_cells cols rows :
  Scad.nested_for (Scad.int_range 0 (cols - 1)) (Scad.int_range 0 (rows - 1))
  = cells cols rows.
Proof.
  unfold Scad.nested_for, Scad.int_range, cells, range.
  replace (cols - 1 - 0 + 1) with cols by lia.
  replace (rows - 1 - 0 + 1) with rows by lia. reflexivity.
Qed.

Lemma cells_count cols rows :
  0 <= cols -> 0 <= rows -> length (cells cols rows) = Z.to_nat (cols * rows).
Proof. intros Hc Hr. rewrite cells_length. lia. Qed.

Lemma flat_map_lookup {A B} (f : A -> list B) (r : nat) xs :
  (forall a, length (f a) = r) ->
  forall i j a, xs !! i = Some a -> (j < r)%nat ->
  flat_map f xs !! (i * r + j)%nat = f a !! j.
Proof.
  intros Hlen. induction xs as [|a0 xs IH]; intros i j a Hi Hj.
  - discriminate.
  - simpl. destruct i as [|i]; simpl in Hi.
    + injection Hi as ->. simpl. apply lookup_app_l. rewrite Hlen. exact Hj.
    + rewrite lookup_app_r by (rewrite Hlen; lia).
      rewrite Hlen. replace (S i * r + j - r)%nat with (i * r + j)%nat by lia.
      apply IH; assumption.
Qed.

(** The cell [(x, y)] is at index [x * rows + y]: [y] changes fastest. *)
Lemma cells_lookup cols rows x y :
  0 <= x < cols -> 0 <= y < rows ->
  cells cols rows !! Z.to_nat (x * rows + y) = Some (x, y).
Proof.
  intros Hx Hy. unfold cells, range.
  replace (Z.to_nat (x * rows + y))
    with (Z.to_nat x * Z.to_nat rows + Z.to_nat y)%nat by nia.
  rewrite (flat_map_lookup _ (Z.to_nat rows) _) with (a := x).
  - change (map (pair x) (seqZ 0 rows)) with (pair x <$> seqZ 0 rows).
    rewrite list_lookup_fmap, lookup_seqZ_lt by lia.
    simpl. do 2 f_equal. lia.
  - intros a. rewrite length_map. apply length_seqZ.
  - rewrite lookup_seqZ_lt by lia. f_equal. lia.
  - lia.
Qed.

Lemma cells_NoDup cols rows : NoDup (cells cols rows).
Proof.
  unfold cells, range. generalize 0 at 2. intros m.
  remember (seqZ m cols) as xs eqn:E.
  assert (Hnd : NoDup xs) by (subst; apply NoDup_seqZ). clear E.
  induction Hnd as [|x xs Hx Hnd IH]; simpl; [constructor|].
  apply NoDup_app. split; [|split; [|exact IH]].
  - change (map (pair x) (seqZ 0 rows)) with (pair x <$> seqZ 0 rows).
    apply NoDup_fmap; [intros a b [= ->]; reflexivity | apply NoDup_seqZ].
  - intros [a b] Hab Hin.
    apply list_elem_of_In, in_map_iff in Hab as (y & [= <- <-] & _).
    apply list_elem_of_In, in_flat_map in Hin as (x' & Hx' & Hin).
    apply in_map_iff in Hin as (y' & [= <- _] & _).
    apply Hx, list_elem_of_In, Hx'.
Qed.
End CellFacts.

(** ** Character pairs in the lines *)

Module LineFacts.
Import PyNum PyExec PyVal App Routes Lines Text.
Import TextFacts PairFacts RunFacts GenFacts.

(** A line is a concatenation of literals and printed values: it is safe
    for a pair of characters that no printed value contains as soon as
    its literals are. *)
Ltac safe_line :=
  repeat match goal with
         | |- safe _ _ (dq +:+ ">") => change (dq +:+ ">") with tag_end
         | |- safe _ _ (_ +:+ _) => apply safe_app
         end;
  lazymatch goal with
  | |- safe _ _ (float_repr _) =>
      apply safe_data; [reflexivity | reflexivity | apply float_repr_chars]
  | |- safe _ _ (str_int _) =>
      apply safe_data; [reflexivity | reflexivity | apply str_int_chars]
  | |- safe _ _ (str_val _) =>
      apply safe_data; [reflexivity | reflexivity | apply str_val_chars]
  | |- safe _ _ _ => vm_compute; reflexivity
  end.

Ltac safe_lines :=
  repeat match goal with
         | |- Forall _ _ => constructor
         | |- safe _ _ _ => safe_line
         end.

Lemma scad_header_no_cy cols rows cell height wall clearance :
  Forall (safe "c" "y") (scad_header cols rows cell height wall clearance).
Proof.
  unfold scad_header, pocket_cube, tray_cube, pocket_loop. safe_lines.
Qed.

Lemma floor_grid_no_cy cols rows cell wall grid :
  Forall (safe "c" "y") (floor_grid_lines cols rows cell wall grid).
Proof.
  unfold floor_grid_lines, rib_loop_x, rib_loop_y.
  destruct (enabled grid); safe_lines.
Qed.

Lemma safe_no_cylinder l : safe "c" "y" l -> ~ contains "cylinder" l.
Proof. apply safe_not_contains. Qed.

Lemma post_line_cylinder d h wall cx cy :
  contains "cylinder(h=" (post_line d h wall cx cy).
Proof.
  exists ("    translate([" +:+ float_repr cx +:+ ", " +:+ float_repr cy
          +:+ ", " +:+ float_repr wall +:+ "]) "),
         (str_val h +:+ ", r=" +:+ float_repr (half (as_float d))
          +:+ ", $fn=32);").
  unfold post_line. rewrite !append_assoc. reflexivity.
Qed.

Lemma join_snoc sep l x :
  l <> [] -> join sep (l ++ [x]) = (join sep l +:+ sep) +:+ x.
Proof.
  induction l as [|s l IH]; intros Hl; [contradiction|].
  destruct l as [|s' l].
  - simpl. rewrite append_assoc. reflexivity.
  - change (join sep ((s :: s' :: l) ++ [x]))
      with (s +:+ sep +:+ join sep ((s' :: l) ++ [x])).
    rewrite IH by discriminate.
    change (join sep (s :: s' :: l)) with (s +:+ sep +:+ join sep (s' :: l)).
    rewrite !append_assoc. reflexivity.
Qed.

Lemma svg_lines_body cols rows cell wall :
  svg_lines cols rows cell wall = (svg_body cols rows cell wall ++ [closing])%list.
Proof. unfold svg_lines, svg_body. rewrite <- app_assoc. reflexivity. Qed.

Lemma svg_body_safe c1 c2 cols rows cell wall :
  data_char c1 = false -> data_char c2 = false ->
  safe c1 c2 svg_style ->
  (forall w h, safe c1 c2 (svg_open w h)) ->
  (forall w h, safe c1 c2 (border_rect w h)) ->
  (forall a b c d, safe c1 c2 (pocket_rect a b c d)) ->
  Forall (safe c1 c2) (svg_body cols rows cell wall).
Proof.
  intros H1 H2 Hs Ho Hb Hp. unfold svg_body, svg_head.
  apply Forall_app. split.
  - constructor; [apply Ho|].
    constructor; [exact Hs|].
    constructor; [apply Hb | constructor].
  - apply Forall_forall. intros l Hl.
    apply list_elem_of_In, in_map_iff in Hl as (c & <- & _). apply Hp.
Qed.

Lemma svg_body_no_circle cols rows cell wall :
  Forall (safe "<" "c") (svg_body cols rows cell wall).
Proof.
  apply svg_body_safe; [reflexivity | reflexivity | vm_compute; reflexivity | ..];
    intros; unfold svg_open, border_rect, pocket_rect; cbv zeta; safe_line.
Qed.

Lemma svg_body_no_g_gt cols rows cell wall :
  Forall (safe "g" ">") (svg_body cols rows cell wall).
Proof.
  apply svg_body_safe; [reflexivity | reflexivity | vm_compute; reflexivity | ..];
    intros; unfold svg_open, border_rect, pocket_rect; cbv zeta; safe_line.
Qed.

Lemma svg_body_nonempty cols rows cell wall : svg_body cols rows cell wall <> [].
Proof. unfold svg_body, svg_head. discriminate. Qed.

Lemma svg_text cols rows cell wall :
  join newline (svg_lines cols rows cell wall)
  = (join newline (svg_body cols rows cell wall) +:+ newline) +:+ closing.
Proof.
  rewrite svg_lines_body. apply join_snoc, svg_body_nonempty.
Qed.
End LineFacts.

(** ** The routes *)

Module RouteFacts.
Import PyNum PyExec PyVal App Routes Lines Text.
Import TextFacts PairFacts RunFacts GenFacts.

Lemma preview_parse_range py_int py_float args p :
  preview_parse py_int py_float args = Return p ->
  float_range (pv_cols p) /\ float_range (pv_rows p).
Proof.
  unfold preview_parse, try_bind. intros H.
  repeat match type of H with
         | context [match ?r with Raise _ => _ | Return _ => _ end] =>
             destruct r; try discriminate H
         end.
  injection H as <-. simpl.
  split; apply float_range_small; unfold clamp; lia.
Qed.

Lemma arg_flag_missing (args : gmap string string) key default :
  args !! key = None ->
  arg_flag args key default
  = (String.eqb default "1" || String.eqb default "true"
     || String.eqb default "yes")%bool.
Proof. intros H. unfold arg_flag. rewrite H. reflexivity. Qed.

Lemma enabled_insert (b : bool) (m : gmap string pyval) :
  enabled (Some (<["enable" := PyBool b]> m)) = b.
Proof.
  unfold enabled.
  destruct (Nat.eqb_spec (size (<["enable" := PyBool b]> m)) 0) as [E|_].
  - apply map_size_empty_iff in E. exfalso.
    exact (insert_non_empty m "enable" (PyBool b) E).
  - rewrite lookup_insert_eq. reflexivity.
Qed.

(** A dictionary that holds a true value under ['enable'] is not empty. *)
Lemma enabled_lookup (g : gmap string pyval) v :
  g !! "enable" = Some v -> truthy v = true -> enabled (Some g) = true.
Proof.
  intros Hg Hv. unfold enabled.
  destruct (Nat.eqb_spec (size g) 0) as [E|_].
  - apply map_size_empty_iff in E. subst g.
    rewrite lookup_empty in Hg. discriminate Hg.
  - rewrite Hg. exact Hv.
Qed.

Lemma grid_of_args_enabled py_float args g :
  grid_of_args py_float args = Return g ->
  enabled (Some g) = arg_flag args "grid" "1".
Proof.
  unfold grid_of_args, try_bind. intros H.
  repeat match type of H with
         | context [match ?r with Raise _ => _ | Return _ => _ end] =>
             destruct r; try discriminate H
         end.
  injection H as <-. apply enabled_insert.
Qed.

Lemma posts_of_args_enabled py_float args ps :
  posts_of_args py_float args = Return ps ->
  enabled (Some ps) = arg_flag args "posts" "0".
Proof.
  unfold posts_of_args, try_bind. intros H.
  repeat match type of H with
         | context [match ?r with Raise _ => _ | Return _ => _ end] =>
             destruct r; try discriminate H
         end.
  injection H as <-. apply enabled_insert.
Qed.

Lemma scad_parse_range py_int py_float args p :
  scad_parse py_int py_float args = Return p ->
  1 <= sp_cols p <= 80 /\ 1 <= sp_rows p <= 80.
Proof.
  unfold scad_parse, try_bind. intros H.
  repeat match type of H with
         | context [match ?r with Raise _ => _ | Return _ => _ end] =>
             destruct r; try discriminate H
         end.
  injection H as <-. simpl. unfold clamp. lia.
Qed.

(** What [download_scad] sends, when it sends a file. *)
Lemma download_scad_sends py_int py_float args scad mimetype name :
  download_scad py_int py_float args = Return (SendFile scad mimetype name) ->
  exists p g ps,
    scad_parse py_int py_float args = Return p
    /\ grid_of_args py_float args = Return g
    /\ posts_of_args py_float args = Return ps
    /\ scad = join newline
                (scad_lines (sp_cols p) (sp_rows p) (sp_cell p) (sp_height p)
                   (sp_wall p) 0.2 (Some g) (Some ps)).
Proof.
  unfold download_scad. intros H.
  destruct (scad_parse py_int py_float args) as [e|p] eqn:Hp;
    [discriminate H|].
  destruct (scad_parse_range _ _ _ _ Hp) as [Hc Hr].
  unfold try_bind in H.
  destruct (grid_of_args py_float args) as [e|g]; [discriminate H|].
  destruct (posts_of_args py_float args) as [e|ps]; [discriminate H|].
  rewrite generate_scad_lines in H by (apply float_range_small; lia).
  destruct (float_to_int (sp_cell p)); [discriminate H|].
  exists p, g, ps. repeat split; try reflexivity. congruence.
Qed.

Lemma download_scad_no_args py_int py_float :
  download_scad py_int py_float ∅
  = Return (SendFile default_download "text/plain" "gridfinity_3x2_51mm.scad").
Proof. vm_compute. reflexivity. Qed.
End RouteFacts.

(** ** Ranges in exact arithmetic *)

Module RangeFacts.
Local Open Scope Q_scope.
















End RangeFacts.

(** ** Counting characters and finding lines *)

Module CountFacts.
Import PyNum PyExec PyVal App Routes Lines Text.
Import TextFacts PairFacts RunFacts GenFacts LineFacts.

Lemma count_app c s t :
  count_char c (s +:+ t) = (count_char c s + count_char c t)%nat.
Proof.
  induction s as [|c' s IH]; [reflexivity|].
  rewrite append_cons. simpl. rewrite IH. lia.
Qed.

Lemma count_data c d :
  data_char c = false -> all_chars data_char d = true -> count_char c d = O.
Proof.
  intros Hc. induction d as [|c' d IH]; simpl; [reflexivity|].
  intros [Hc' Hd]%andb_true_iff.
  rewrite (data_char_neq _ _ Hc' Hc), (IH Hd). reflexivity.
Qed.

Lemma count_join c sep l :
  count_char c sep = O ->
  count_char c (join sep l) = list_sum (map (count_char c) l).
Proof.
  intros Hsep. induction l as [|s l IH]; [reflexivity|].
  destruct l as [|s' l].
  - simpl. lia.
  - change (join sep (s :: s' :: l)) with (s +:+ sep +:+ join sep (s' :: l)).
    rewrite !count_app, Hsep, IH. simpl. lia.
Qed.

(** Lines without the separator: the separator occurs between them only. *)
Lemma count_separators c l :
  Forall (fun s => count_char c s = O) l ->
  count_char c (join (String c "") l) = Nat.pred (length l).
Proof.
  induction l as [|s l IH]; intros Hl; [reflexivity|].
  inversion Hl as [|? ? Hs Hl']; subst.
  destruct l as [|s' l].
  - simpl. exact Hs.
  - change (join (String c "") (s :: s' :: l))
      with (s +:+ String c "" +:+ join (String c "") (s' :: l)).
    rewrite !count_app, Hs, (IH Hl'). simpl. rewrite Ascii.eqb_refl.
    reflexivity.
Qed.

Lemma list_sum_const {A} (f : A -> nat) (n : nat) l :
  (forall a, f a = n) -> list_sum (map f l) = (n * length l)%nat.
Proof.
  intros H. induction l as [|a l IH]; simpl; [lia|]. rewrite H, IH. lia.
Qed.

(** Count a character that no printed value contains in a line made of
    literals and printed values. *)
Ltac count_line c :=
  repeat match goal with
         | |- context [float_repr ?x] =>
             let H := fresh "H" in
             pose proof (count_data c (float_repr x) eq_refl
                           (float_repr_chars x)) as H;
             generalize dependent (float_repr x); intros
         | |- context [str_int ?x] =>
             let H := fresh "H" in
             pose proof (count_data c (str_int x) eq_refl
                           (str_int_chars x)) as H;
             generalize dependent (str_int x); intros
         | |- context [str_val ?x] =>
             let H := fresh "H" in
             pose proof (count_data c (str_val x) eq_refl
                           (str_val_chars x)) as H;
             generalize dependent (str_val x); intros
         end;
  rewrite ?count_app;
  repeat match goal with
         | H : count_char _ _ = O |- _ => rewrite H; clear H
         end;
  reflexivity.

Ltac count_lines c :=
  repeat match goal with
         | |- Forall _ _ => constructor
         | |- count_char _ _ = _ => count_line c
         end.

Lemma scad_lines_one_line cols rows cell height wall clearance grid posts :
  Forall (fun s => count_char "010" s = O)
         (scad_lines cols rows cell height wall clearance grid posts).
Proof.
  unfold scad_lines. rewrite !Forall_app. split; [|split; [|split]].
  - unfold scad_header, pocket_cube, tray_cube, pocket_loop.
    count_lines "010"%char.
  - unfold floor_grid_lines, rib_loop_x, rib_loop_y.
    destruct (enabled grid); count_lines "010"%char.
  - unfold posts_lines. destruct (enabled posts); [|constructor].
    rewrite !Forall_app. split; [|split].
    + count_lines "010"%char.
    + apply Forall_forall. intros l Hl.
      apply list_elem_of_In, in_map_iff in Hl as (c & <- & _).
      unfold cylinder, post_line. count_line "010"%char.
    + count_lines "010"%char.
  - count_lines "010"%char.
Qed.

Lemma contains_join sep l s : s ∈ l -> contains s (join sep l).
Proof.
  induction l as [|s' l IH]; intros Hs.
  - apply elem_of_nil in Hs. contradiction.
  - apply elem_of_cons in Hs as [->|Hs].
    + destruct l as [|s'' l].
      * exists "", "". simpl. rewrite append_empty_r. reflexivity.
      * exists "", (sep +:+ join sep (s'' :: l)). reflexivity.
    + destruct l as [|s'' l]; [apply elem_of_nil in Hs; contradiction|].
      destruct (IH Hs) as (a & b & E).
      exists (s' +:+ sep +:+ a), b.
      change (join sep (s' :: s'' :: l))
        with (s' +:+ sep +:+ join sep (s'' :: l)).
      rewrite E, !append_assoc. reflexivity.
Qed.

Lemma contains_tail a b s : contains (a +:+ b) s -> contains b s.
Proof.
  intros (x & y & ->). exists (x +:+ a), y. rewrite !append_assoc. reflexivity.
Qed.

(** A printed value is safe for a pair whose second character it cannot
    contain. *)
Lemma safe_data_second c1 c2 d :
  data_char c2 = false -> all_chars data_char d = true -> safe c1 c2 d.
Proof.
  intros H2 H. unfold safe.
  enough (forall p, no_pair c1 c2 p d = true) as Hp by apply Hp.
  induction d as [|c d IH]; simpl; intros p; [reflexivity|].
  simpl in H. apply andb_true_iff in H as [Hc Hd].
  rewrite (data_char_neq _ _ Hc H2), andb_false_r. apply IH, Hd.
Qed.

Ltac safe_line_second :=
  repeat match goal with
         | |- safe _ _ (_ +:+ _) => apply safe_app
         end;
  lazymatch goal with
  | |- safe _ _ (float_repr _) =>
      apply safe_data_second; [reflexivity | apply float_repr_chars]
  | |- safe _ _ (str_int _) =>
      apply safe_data_second; [reflexivity | apply str_int_chars]
  | |- safe _ _ (str_val _) =>
      apply safe_data_second; [reflexivity | apply str_val_chars]
  | |- safe _ _ _ => vm_compute; reflexivity
  end.

Ltac safe_lines_second :=
  repeat match goal with
         | |- Forall _ _ => constructor
         | |- safe _ _ _ => safe_line_second
         end.

(** Outside the floor grid section no line has an underscore before a
    [g]; outside the posts section no line has an [s] before a bracket. *)
Lemma no_grid_no_underscore_g cols rows cell height wall clearance posts :
  Forall (safe "_" "g")
         (scad_lines cols rows cell height wall clearance None posts).
Proof.
  unfold scad_lines. rewrite !Forall_app. split; [|split; [|split]].
  - unfold scad_header, pocket_cube, tray_cube, pocket_loop.
    safe_lines_second.
  - constructor.
  - unfold posts_lines. destruct (enabled posts); [|constructor].
    rewrite !Forall_app. split; [|split].
    + safe_lines_second.
    + apply Forall_forall. intros l Hl.
      apply list_elem_of_In, in_map_iff in Hl as (c & <- & _).
      unfold cylinder, post_line. safe_line_second.
    + safe_lines_second.
  - safe_lines_second.
Qed.

Lemma no_posts_no_s_bracket cols rows cell height wall clearance grid :
  Forall (safe "s" "(")
         (scad_lines cols rows cell height wall clearance grid None).
Proof.
  unfold scad_lines. rewrite !Forall_app. split; [|split; [|split]].
  - unfold scad_header, pocket_cube, tray_cube, pocket_loop.
    safe_lines_second.
  - unfold floor_grid_lines, rib_loop_x, rib_loop_y.
    destruct (enabled grid); safe_lines_second.
  - constructor.
  - safe_lines_second.
Qed.

(** A section that is off is the section of no dictionary. *)
Lemma scad_lines_grid_off cols rows cell height wall clearance grid posts :
  enabled grid = false ->
  scad_lines cols rows cell height wall clearance grid posts
  = scad_lines cols rows cell height wall clearance None posts.
Proof.
  intros H. unfold scad_lines, floor_grid_lines. rewrite H. reflexivity.
Qed.

Lemma scad_lines_posts_off cols rows cell height wall clearance grid posts :
  enabled posts = false ->
  scad_lines cols rows cell height wall clearance grid posts
  = scad_lines cols rows cell height wall clearance grid None.
Proof.
  intros H. unfold scad_lines, posts_lines. rewrite H. reflexivity.
Qed.

Lemma enabled_true_iff (d : option (gmap string pyval)) :
  enabled d = true
  <-> exists g v, d = Some g /\ g !! "enable" = Some v /\ truthy v = true.
Proof.
  split.
  - destruct d as [g|]; simpl; [|discriminate].
    destruct (size g =? 0)%nat; [discriminate|].
    destruct (g !! "enable") as [v|] eqn:E; [|discriminate].
    intros Hv. exists g, v. auto.
  - intros (g & v & -> & Hg & Hv). simpl.
    destruct (Nat.eqb_spec (size g) 0) as [E|_].
    + apply map_size_empty_iff in E. subst g.
      rewrite lookup_empty in Hg. discriminate Hg.
    + rewrite Hg. exact Hv.
Qed.
End CountFacts.

(** * The claims *)

(** ** No geometric validation *)

Module Geometry.
Import PyNum PyExec PyVal App Routes Lines Text.
Import TextFacts PairFacts RunFacts GenFacts.
Import CellFacts LineFacts RouteFacts RangeFacts.

(** C1 (as stated, refuted): with [cell = 3.1], [wall = 3.0] and
    [clearance = 0.2] the pocket is not positive, [wall + clearance >= cell]
    holds, and [generate_scad] returns a complete document whose pocket
    cube has a negative size. *)
Lemma invalid_geometry_not_rejected :
  (3.1 <=? 3.0 + 0.2)%float = true /\
  generate_scad 1 1 3.1 12.0 3.0 0.2 None None
  = Return (join newline
      [ "// Generated Gridfinity SCAD"; "cell = 3.1;"; "cols = 1;";
        "rows = 1;"; "height = 12.0;"; "wall = 3.0;"; "clearance = 0.2;";
        "module pocket() {";
        "  translate([wall/2 + clearance/2, wall/2 + clearance/2, 0])";
        "    cube([-0.09999999999999992, -0.09999999999999992, height], center=false);";
        "}"; "// outer tray"; "module tray() {"; "  difference() {";
        "    cube([3.1, 3.1, height + wall], center=false);";
        "    for (x = [0:0]) for (y = [0:0])";
        "      translate([x*cell, y*cell, 0]) pocket();"; "  }"; "}";
        "tray();" ]).
Proof. split; vm_compute; reflexivity. Qed.

(** C1 (amended): [generate_scad] has no geometric check. Whatever [cell],
    [wall] and [clearance] are, it returns the complete document when
    [cols] and [rows] convert to floats, and otherwise raises
    [OverflowError] at its first statements, before any line exists. *)
Theorem generate_scad_outcome cols rows cell height wall clearance grid posts :
  generate_scad cols rows cell height wall clearance grid posts
  = if decide (float_range cols /\ float_range rows)
    then Return (join newline
           (scad_lines cols rows cell height wall clearance grid posts))
    else Raise OverflowError.
Proof.
  destruct (decide _) as [[Hc Hr]|H].
  - apply generate_scad_lines; assumption.
  - apply generate_scad_overflow, H.
Qed.

(** C9 (as stated, refuted): [cols = 2^1024] is a positive integer, and
    [cols * cell] raises [OverflowError]. *)
Lemma generate_scad_overflow_example :
  0 < 2 ^ 1024 /\
  generate_scad (2 ^ 1024) 1 51.0 12.0 3.0 0.2 None None = Raise OverflowError.
Proof. split; vm_compute; reflexivity. Qed.



(** C9 (amended): for positive [cols] and [rows] below the float overflow
    threshold, every [cell], [height], [wall] and [clearance] (also not a
    number, infinite, or with [wall + clearance >= cell]) and every pair of
    feature dictionaries, [generate_scad] returns a string. *)
Theorem generate_scad_total cols rows cell height wall clearance grid posts :
  0 < cols < float_overflow -> 0 < rows < float_overflow ->
  exists doc,
    generate_scad cols rows cell height wall clearance grid posts = Return doc.
Proof.
  intros [Hc1 Hc2] [Hr1 Hr2]. eexists.
  apply generate_scad_lines; apply float_range_bounds; assumption.
Qed.

Lemma generate_scad_total_witness :
  (3.1 <=? 3.0 + 0.2)%float = true /\
  exists doc, generate_scad 1 1 3.1 12.0 3.0 0.2 None None = Return doc.
Proof.
  split; [vm_compute; reflexivity|].
  apply generate_scad_total; split; vm_compute; reflexivity.
Defined.
End Geometry.

(** ** The tray and its pockets *)

Module Tray.
Import PyNum PyExec PyVal App Routes Lines Text.
Import TextFacts PairFacts RunFacts GenFacts.
Import CellFacts LineFacts RouteFacts RangeFacts.

(** C2: for a grid of at least one column and one row, the document is
    the header below followed by the optional sections and the call of
    [tray()]. In the header the outer cube is [cols*cell] by [rows*cell],
    the pocket cube is [cell - wall - clearance] square, the pocket is
    shifted by [wall/2 + clearance/2] along both axes, and one pocket is
    placed at [(x*cell, y*cell)] for each [x] in [[0:cols-1]] and [y] in
    [[0:rows-1]], [cols*rows] pockets in all. For the 3 by 2 grid of 51 mm
    cells with a 3 mm wall and 0.2 mm clearance the literals are 153.0,
    102.0 and 47.8, there are 6 pockets and the pocket of cell (0,0) has
    its corner at (1.6, 1.6). *)
Theorem scad_tray_and_pockets cols rows cell height wall clearance grid posts :
  0 < cols -> 0 < rows -> float_range cols -> float_range rows ->
  generate_scad cols rows cell height wall clearance grid posts
  = Return (join newline
      ([ "// Generated Gridfinity SCAD";
         "cell = " +:+ float_repr cell +:+ ";";
         "cols = " +:+ str_int cols +:+ ";";
         "rows = " +:+ str_int rows +:+ ";";
         "height = " +:+ float_repr height +:+ ";";
         "wall = " +:+ float_repr wall +:+ ";";
         "clearance = " +:+ float_repr clearance +:+ ";";
         "module pocket() {";
         "  translate([wall/2 + clearance/2, wall/2 + clearance/2, 0])";
         "    cube([" +:+ float_repr (cell - wall - clearance) +:+ ", "
           +:+ float_repr (cell - wall - clearance)
           +:+ ", height], center=false);";
         "}";
         "// outer tray";
         "module tray() {";
         "  difference() {";
         "    cube([" +:+ float_repr (Z2float cols * cell) +:+ ", "
           +:+ float_repr (Z2float rows * cell)
           +:+ ", height + wall], center=false);";
         "    for (x = [0:" +:+ str_int (cols - 1) +:+ "]) for (y = [0:"
           +:+ str_int (rows - 1) +:+ "])";
         "      translate([x*cell, y*cell, 0]) pocket();";
         "  }";
         "}" ]
       ++ floor_grid_lines cols rows cell wall grid
       ++ posts_lines cols rows cell wall posts
       ++ [ "tray();" ]))
  /\ Scad.nested_for (Scad.int_range 0 (cols - 1)) (Scad.int_range 0 (rows - 1))
     = cells cols rows
  /\ length (cells cols rows) = Z.to_nat (cols * rows)
  /\ (forall x y, (x, y) ∈ cells cols rows <-> 0 <= x < cols /\ 0 <= y < rows)
  /\ (forall h g p,
        generate_scad 3 2 51.0 h 3.0 0.2 g p
        = Return (join newline
            ([ "// Generated Gridfinity SCAD"; "cell = 51.0;"; "cols = 3;";
               "rows = 2;"; "height = " +:+ float_repr h +:+ ";";
               "wall = 3.0;"; "clearance = 0.2;"; "module pocket() {";
               "  translate([wall/2 + clearance/2, wall/2 + clearance/2, 0])";
               "    cube([47.8, 47.8, height], center=false);"; "}";
               "// outer tray"; "module tray() {"; "  difference() {";
               "    cube([153.0, 102.0, height + wall], center=false);";
               "    for (x = [0:2]) for (y = [0:1])";
               "      translate([x*cell, y*cell, 0]) pocket();"; "  }"; "}" ]
             ++ floor_grid_lines 3 2 51.0 3.0 g
             ++ posts_lines 3 2 51.0 3.0 p
             ++ [ "tray();" ])))
  /\ cells 3 2 = [ (0, 0); (0, 1); (1, 0); (1, 1); (2, 0); (2, 1) ]
  /\ Scad.pocket_corner 51.0 3.0 0.2 (0, 0) = (1.6, 1.6)%float
  /\ ((3.0 + 0.2) / 2 = 1.6)%float.
Proof.
  intros Hc0 Hr0 Hc Hr.
  split; [rewrite generate_scad_lines by assumption; reflexivity|].
  split; [apply nested_for_cells|].
  split; [apply cells_count; lia|].
  split; [intros x y; apply elem_of_cells|].
  split; [|split; [|split]].
  2, 3, 4: vm_compute; reflexivity.
  intros h g p.
  rewrite generate_scad_lines by (apply float_range_small; lia).
  reflexivity.
Qed.

Lemma scad_tray_and_pockets_witness :
  exists doc, generate_scad 3 2 51.0 12.0 3.0 0.2 None None = Return doc.
Proof.
  eexists.
  refine (proj1 (scad_tray_and_pockets 3 2 51.0 12.0 3.0 0.2 None None
                   _ _ _ _)); vm_compute; reflexivity.
Defined.
End Tray.

(** ** The preview and the order of the pockets *)

Module Preview.
Import PyNum PyExec PyVal App Routes Lines Text.
Import TextFacts PairFacts RunFacts GenFacts.
Import CellFacts LineFacts RouteFacts RangeFacts.

(** C5: for a grid of at least one column and one row the preview is the
    opening tag whose viewport is [0 0 cols*cell rows*cell] and whose
    width and height are [cols*cell] and [rows*cell], the style, the
    border rectangle of that size at the origin, one rectangle per cell
    [(x, y)] at [(x*cell + wall/2, y*cell + wall/2)] of size [cell - wall]
    square, and the closing tag. The cells are those of the grid, each
    once; no clearance enters. *)
Theorem svg_document cols rows cell wall :
  0 < cols -> 0 < rows -> float_range cols -> float_range rows ->
  let width := (Z2float cols * cell)%float in
  let height := (Z2float rows * cell)%float in
  generate_svg cols rows cell wall
  = Return (join newline
      ([ "<svg xmlns=" +:+ dq +:+ "http://www.w3.org/2000/svg" +:+ dq
           +:+ " viewBox=" +:+ dq
           +:+ ("0 0 " +:+ float_repr width +:+ " " +:+ float_repr height)
           +:+ dq +:+ " width=" +:+ dq +:+ float_repr width +:+ "px" +:+ dq
           +:+ " height=" +:+ dq +:+ float_repr height +:+ "px" +:+ dq
           +:+ ">";
         "<style>rect{fill:#f5f5f5;stroke:#333;stroke-width:0.5}</style>";
         "<rect x=" +:+ dq +:+ "0" +:+ dq +:+ " y=" +:+ dq +:+ "0" +:+ dq
           +:+ " width=" +:+ dq +:+ float_repr width +:+ dq +:+ " height="
           +:+ dq +:+ float_repr height +:+ dq +:+ " fill=" +:+ dq +:+ "none"
           +:+ dq +:+ " stroke=" +:+ dq +:+ "#000" +:+ dq +:+ " stroke-width="
           +:+ dq +:+ "1" +:+ dq +:+ "/>" ]
       ++ map (fun c : Z * Z =>
                 "<rect x=" +:+ dq
                 +:+ float_repr (Z2float (fst c) * cell + wall / 2) +:+ dq
                 +:+ " y=" +:+ dq
                 +:+ float_repr (Z2float (snd c) * cell + wall / 2) +:+ dq
                 +:+ " width=" +:+ dq +:+ float_repr (cell - wall) +:+ dq
                 +:+ " height=" +:+ dq +:+ float_repr (cell - wall) +:+ dq
                 +:+ " />")
              (cells cols rows)
       ++ [ "</svg>" ]))
  /\ length (cells cols rows) = Z.to_nat (cols * rows)
  /\ NoDup (cells cols rows)
  /\ (forall x y, (x, y) ∈ cells cols rows <-> 0 <= x < cols /\ 0 <= y < rows).
Proof.
  intros Hc0 Hr0 Hc Hr width height.
  split; [rewrite generate_svg_lines by assumption; reflexivity|].
  split; [rewrite cells_length; lia|].
  split; [apply cells_NoDup|].
  intros x y. apply elem_of_cells.
Qed.

Lemma svg_document_witness :
  generate_svg 3 2 51.0 3.0
  = Return (join newline
      [ "<svg xmlns=" +:+ dq +:+ "http://www.w3.org/2000/svg" +:+ dq
          +:+ " viewBox=" +:+ dq +:+ "0 0 153.0 102.0" +:+ dq +:+ " width="
          +:+ dq +:+ "153.0px" +:+ dq +:+ " height=" +:+ dq +:+ "102.0px"
          +:+ dq +:+ ">";
        "<style>rect{fill:#f5f5f5;stroke:#333;stroke-width:0.5}</style>";
        "<rect x=" +:+ dq +:+ "0" +:+ dq +:+ " y=" +:+ dq +:+ "0" +:+ dq
          +:+ " width=" +:+ dq +:+ "153.0" +:+ dq +:+ " height=" +:+ dq
          +:+ "102.0" +:+ dq +:+ " fill=" +:+ dq +:+ "none" +:+ dq
          +:+ " stroke=" +:+ dq +:+ "#000" +:+ dq +:+ " stroke-width="
          +:+ dq +:+ "1" +:+ dq +:+ "/>";
        "<rect x=" +:+ dq +:+ "1.5" +:+ dq +:+ " y=" +:+ dq +:+ "1.5" +:+ dq
          +:+ " width=" +:+ dq +:+ "48.0" +:+ dq +:+ " height=" +:+ dq
          +:+ "48.0" +:+ dq +:+ " />";
        "<rect x=" +:+ dq +:+ "1.5" +:+ dq +:+ " y=" +:+ dq +:+ "52.5"
          +:+ dq +:+ " width=" +:+ dq +:+ "48.0" +:+ dq +:+ " height="
          +:+ dq +:+ "48.0" +:+ dq +:+ " />";
        "<rect x=" +:+ dq +:+ "52.5" +:+ dq +:+ " y=" +:+ dq +:+ "1.5"
          +:+ dq +:+ " width=" +:+ dq +:+ "48.0" +:+ dq +:+ " height="
          +:+ dq +:+ "48.0" +:+ dq +:+ " />";
        "<rect x=" +:+ dq +:+ "52.5" +:+ dq +:+ " y=" +:+ dq +:+ "52.5"
          +:+ dq +:+ " width=" +:+ dq +:+ "48.0" +:+ dq +:+ " height="
          +:+ dq +:+ "48.0" +:+ dq +:+ " />";
        "<rect x=" +:+ dq +:+ "103.5" +:+ dq +:+ " y=" +:+ dq +:+ "1.5"
          +:+ dq +:+ " width=" +:+ dq +:+ "48.0" +:+ dq +:+ " height="
          +:+ dq +:+ "48.0" +:+ dq +:+ " />";
        "<rect x=" +:+ dq +:+ "103.5" +:+ dq +:+ " y=" +:+ dq +:+ "52.5"
          +:+ dq +:+ " width=" +:+ dq +:+ "48.0" +:+ dq +:+ " height="
          +:+ dq +:+ "48.0" +:+ dq +:+ " />";
        "</svg>" ]).
Proof.
  refine (eq_trans (proj1 (svg_document 3 2 51.0 3.0 _ _ _ _)) _);
    vm_compute; reflexivity.
Defined.

(** C7 (as stated, refuted): in the preview of a 2 by 2 grid the second
    pocket rectangle is that of cell (0, 1), at [x = 1.5], [y = 52.5];
    with [x] fastest it would be that of cell (1, 0). *)
Lemma preview_order_not_row_major :
  run_lines (generate_svg_body 2 2 51.0 3.0)
  = Return ([ svg_open 102.0 102.0; svg_style; border_rect 102.0 102.0;
              pocket_rect 1.5 1.5 48.0 48.0;
              pocket_rect 1.5 52.5 48.0 48.0;
              pocket_rect 52.5 1.5 48.0 48.0;
              pocket_rect 52.5 52.5 48.0 48.0;
              "</svg>" ])
  /\ map (preview_corner 51.0 3.0) (row_major 2 2)
     = [ (1.5, 1.5); (52.5, 1.5); (1.5, 52.5); (52.5, 52.5) ]%float
  /\ run_lines (generate_svg_body 2 2 51.0 3.0)
     <> Return (svg_head 2 2 51.0
                ++ map (preview_pocket 51.0 3.0) (row_major 2 2)
                ++ [ "</svg>" ])%list.
Proof.
  split; [vm_compute; reflexivity|].
  split; [vm_compute; reflexivity|].
  vm_compute. discriminate.
Qed.

(** C7 (amended): both emitters enumerate the pockets in the same order,
    with [x] in the outer loop and [y] in the inner one, so that [y]
    changes fastest: the preview appends its rectangles in the order of
    [cells], the model text prints the loop [for (x = [0:cols-1])
    for (y = [0:rows-1])], which OpenSCAD runs in that same order, and the
    cell [(x, y)] comes at index [x*rows + y]. *)
Theorem pocket_order_shared cols rows cell height wall clearance grid posts :
  0 < cols -> 0 < rows -> float_range cols -> float_range rows ->
  run_lines (generate_svg_body cols rows cell wall)
  = Return (svg_head cols rows cell
            ++ map (preview_pocket cell wall) (cells cols rows)
            ++ [ "</svg>" ])%list
  /\ (exists before after,
        run_lines (generate_scad_body cols rows cell height wall clearance
                     grid posts)
        = Return (before
                  ++ [ "    for (x = [0:" +:+ str_int (cols - 1)
                         +:+ "]) for (y = [0:" +:+ str_int (rows - 1) +:+ "])";
                       "      translate([x*cell, y*cell, 0]) pocket();" ]
                  ++ after)%list)
  /\ Scad.nested_for (Scad.int_range 0 (cols - 1)) (Scad.int_range 0 (rows - 1))
     = cells cols rows
  /\ (forall x y, 0 <= x < cols -> 0 <= y < rows ->
        cells cols rows !! Z.to_nat (x * rows + y) = Some (x, y)).
Proof.
  intros Hc0 Hr0 Hc Hr.
  split; [apply run_lines_emits, emits_svg; assumption|].
  split.
  { eexists (take 15 (scad_header cols rows cell height wall clearance)), _.
    rewrite (run_lines_emits _ _
               (emits_scad cols rows cell height wall clearance grid posts
                  Hc Hr)).
    reflexivity. }
  split; [|intros x y; apply cells_lookup].
  unfold Scad.nested_for, Scad.int_range, cells, range.
  replace (cols - 1 - 0 + 1) with cols by lia.
  replace (rows - 1 - 0 + 1) with rows by lia. reflexivity.
Qed.

Lemma pocket_order_shared_witness :
  cells 2 2 !! 1%nat = Some (0, 1).
Proof.
  refine (proj2 (proj2 (proj2 (pocket_order_shared 2 2 51.0 12.0 3.0 0.2
                                 None None _ _ _ _))) 0 1 _ _);
    first [lia | vm_compute; reflexivity].
Defined.
End Preview.

(** ** Posts *)

Module Features.
Import PyNum PyExec PyVal App Routes Lines Text.
Import TextFacts PairFacts RunFacts GenFacts.
Import CellFacts LineFacts RouteFacts RangeFacts.

(** C6: with posts enabled, the document has, between the lines that open
    and close the [posts] module, one cylinder line per cell of the grid,
    [cols*rows] in all, with the height [h] and the radius [d/2] for the
    height [h] and the diameter [d] of the dictionary (4.0 and 6.0 when it
    has none), the centre [(x*cell + cell/2, y*cell + cell/2)] and the
    elevation [wall]; no other line of the document mentions a cylinder.
    On a 2 by 2 grid of 51 mm cells the centres are (25.5, 25.5),
    (25.5, 76.5), (76.5, 25.5) and (76.5, 76.5). *)
Theorem scad_posts cols rows cell height wall clearance grid
    (posts : gmap string pyval) (v : pyval) (d h : float) :
  0 < cols -> 0 < rows -> float_range cols -> float_range rows ->
  posts !! "enable" = Some v -> truthy v = true ->
  posts !! "diameter" = Some (PyFloat d)
  \/ (posts !! "diameter" = None /\ d = 6.0%float) ->
  posts !! "height" = Some (PyFloat h)
  \/ (posts !! "height" = None /\ h = 4.0%float) ->
  let others := (scad_header cols rows cell height wall clearance
                 ++ floor_grid_lines cols rows cell wall grid)%list in
  generate_scad cols rows cell height wall clearance grid (Some posts)
  = Return (join newline
      (others
       ++ [ "module posts() {"; "  union() {" ]
       ++ map (fun c : Z * Z => "    translate(["
                 +:+ float_repr (Z2float (fst c) * cell + cell / 2) +:+ ", "
                 +:+ float_repr (Z2float (snd c) * cell + cell / 2) +:+ ", "
                 +:+ float_repr wall +:+ "]) cylinder(h=" +:+ float_repr h
                 +:+ ", r=" +:+ float_repr (d / 2) +:+ ", $fn=32);")
              (cells cols rows)
       ++ [ "  }"; "}"; "posts();"; "tray();" ]))
  /\ length (cells cols rows) = Z.to_nat (cols * rows)
  /\ NoDup (cells cols rows)
  /\ (forall x y, (x, y) ∈ cells cols rows <-> 0 <= x < cols /\ 0 <= y < rows)
  /\ Forall (fun l => ~ contains "cylinder" l)
       (others ++ [ "module posts() {"; "  union() {"; "  }"; "}";
                    "posts();"; "tray();" ])
  /\ map (cell_center 51.0) (cells 2 2)
     = [ (25.5, 25.5); (25.5, 76.5); (76.5, 25.5); (76.5, 76.5) ]%float
  /\ Permutation (map (cell_center 51.0) (cells 2 2))
       [ (25.5, 25.5); (76.5, 25.5); (25.5, 76.5); (76.5, 76.5) ]%float.
Proof.
  intros Hc0 Hr0 Hc Hr Hen Hv Hd Hh others.
  assert (Ed : dict_get posts "diameter" (PyFloat 6.0) = PyFloat d).
  { unfold dict_get. destruct Hd as [->|[-> ->]]; reflexivity. }
  assert (Eh : dict_get posts "height" (PyFloat 4.0) = PyFloat h).
  { unfold dict_get. destruct Hh as [->|[-> ->]]; reflexivity. }
  split.
  { rewrite generate_scad_lines by assumption. do 2 f_equal.
    unfold scad_lines, posts_lines, cylinder, post_d, post_h.
    rewrite (enabled_lookup posts v Hen Hv). simpl default.
    rewrite Ed, Eh.
    subst others. rewrite <- !app_assoc. reflexivity. }
  split; [rewrite cells_length; lia|].
  split; [apply cells_NoDup|].
  split; [intros x y; apply elem_of_cells|].
  split.
  { subst others. rewrite !Forall_app. split; [split|].
    - eapply Forall_impl; [apply scad_header_no_cy|]. apply safe_no_cylinder.
    - eapply Forall_impl; [apply floor_grid_no_cy|]. apply safe_no_cylinder.
    - repeat (constructor; try (apply safe_no_cylinder; reflexivity)). }
  split; [vm_compute; reflexivity|].
  replace (map (cell_center 51.0) (cells 2 2))
    with [ (25.5, 25.5); (25.5, 76.5); (76.5, 25.5); (76.5, 76.5) ]%float
    by (vm_compute; reflexivity).
  apply perm_skip, perm_swap.
Qed.

Lemma scad_posts_witness :
  generate_scad 2 2 51.0 12.0 3.0 0.2 None
    (Some (<["enable" := PyBool true]>
           (<["diameter" := PyFloat 8.0]>
            (<["height" := PyFloat 5.5]> ∅))))
  = Return (join newline
      [ "// Generated Gridfinity SCAD"; "cell = 51.0;"; "cols = 2;";
        "rows = 2;"; "height = 12.0;"; "wall = 3.0;"; "clearance = 0.2;";
        "module pocket() {";
        "  translate([wall/2 + clearance/2, wall/2 + clearance/2, 0])";
        "    cube([47.8, 47.8, height], center=false);"; "}";
        "// outer tray"; "module tray() {"; "  difference() {";
        "    cube([102.0, 102.0, height + wall], center=false);";
        "    for (x = [0:1]) for (y = [0:1])";
        "      translate([x*cell, y*cell, 0]) pocket();"; "  }"; "}";
        "module posts() {"; "  union() {";
        "    translate([25.5, 25.5, 3.0]) cylinder(h=5.5, r=4.0, $fn=32);";
        "    translate([25.5, 76.5, 3.0]) cylinder(h=5.5, r=4.0, $fn=32);";
        "    translate([76.5, 25.5, 3.0]) cylinder(h=5.5, r=4.0, $fn=32);";
        "    translate([76.5, 76.5, 3.0]) cylinder(h=5.5, r=4.0, $fn=32);";
        "  }"; "}"; "posts();"; "tray();" ])
  /\ generate_scad 2 2 51.0 12.0 3.0 0.2 None
       (Some (<["enable" := PyBool true]> ∅))
     = Return (join newline
         [ "// Generated Gridfinity SCAD"; "cell = 51.0;"; "cols = 2;";
           "rows = 2;"; "height = 12.0;"; "wall = 3.0;"; "clearance = 0.2;";
           "module pocket() {";
           "  translate([wall/2 + clearance/2, wall/2 + clearance/2, 0])";
           "    cube([47.8, 47.8, height], center=false);"; "}";
           "// outer tray"; "module tray() {"; "  difference() {";
           "    cube([102.0, 102.0, height + wall], center=false);";
           "    for (x = [0:1]) for (y = [0:1])";
           "      translate([x*cell, y*cell, 0]) pocket();"; "  }"; "}";
           "module posts() {"; "  union() {";
           "    translate([25.5, 25.5, 3.0]) cylinder(h=4.0, r=3.0, $fn=32);";
           "    translate([25.5, 76.5, 3.0]) cylinder(h=4.0, r=3.0, $fn=32);";
           "    translate([76.5, 25.5, 3.0]) cylinder(h=4.0, r=3.0, $fn=32);";
           "    translate([76.5, 76.5, 3.0]) cylinder(h=4.0, r=3.0, $fn=32);";
           "  }"; "}"; "posts();"; "tray();" ]).
Proof.
  split.
  - refine (eq_trans
              (proj1 (scad_posts 2 2 51.0 12.0 3.0 0.2 None _ (PyBool true)
                        8.0 5.5 _ _ _ _ _ _ (or_introl _) (or_introl _))) _);
      first [lia | vm_compute; reflexivity].
  - refine (eq_trans
              (proj1 (scad_posts 2 2 51.0 12.0 3.0 0.2 None _ (PyBool true)
                        6.0 4.0 _ _ _ _ _ _
                        (or_intror (conj _ eq_refl))
                        (or_intror (conj _ eq_refl)))) _);
      first [lia | vm_compute; reflexivity].
Defined.
End Features.

(** ** Post markers in the preview *)

Module Markers.
Import PyNum PyExec PyVal App Routes Lines Text.
Import TextFacts PairFacts RunFacts GenFacts.
Import CellFacts LineFacts RouteFacts RangeFacts.

(** C10: a document returned by [generate_svg] has no circle element and
    ends with the closing tag. [preview_svg] returns that document as it
    is when posts are not requested; when they are, the closing tag is
    replaced by a newline, one circle element per cell, centred at
    [(x*cell + cell/2, y*cell + cell/2)] with the radius [post_d/2],
    joined by newlines, a newline and the closing tag, so that the circles
    stand immediately before the closing tag. *)
Theorem preview_markers :
  (forall cols rows cell wall doc,
     generate_svg cols rows cell wall = Return doc ->
     ~ contains "<circle" doc /\ ends_with "</svg>" doc)
  /\ (forall py_int py_float args p,
        preview_parse py_int py_float args = Return p ->
        let body := join newline
                      (svg_body (pv_cols p) (pv_rows p) (pv_cell p) (pv_wall p))
                    +:+ newline in
        let markers :=
          map (fun c : Z * Z =>
                 "<circle cx=" +:+ dq
                 +:+ float_repr (Z2float (fst c) * pv_cell p + pv_cell p / 2)
                 +:+ dq +:+ " cy=" +:+ dq
                 +:+ float_repr (Z2float (snd c) * pv_cell p + pv_cell p / 2)
                 +:+ dq +:+ " r=" +:+ dq +:+ float_repr (pv_post_d p / 2)
                 +:+ dq +:+ " fill=" +:+ dq +:+ "#666" +:+ dq +:+ " opacity="
                 +:+ dq +:+ "0.6" +:+ dq +:+ " />")
              (cells (pv_cols p) (pv_rows p)) in
        generate_svg (pv_cols p) (pv_rows p) (pv_cell p) (pv_wall p)
        = Return (body +:+ "</svg>")
        /\ preview_svg py_int py_float args
           = Return (ResponseOk
                       (if pv_post_enable p
                        then body +:+ newline +:+ join newline markers
                             +:+ newline +:+ "</svg>"
                        else body +:+ "</svg>")
                       "image/svg+xml")).
Proof.
  split.
  - intros cols rows cell wall doc H.
    destruct (decide (float_range cols /\ float_range rows)) as [[Hc Hr]|Hn].
    + rewrite generate_svg_lines in H by assumption.
      assert (E : doc = join newline (svg_lines cols rows cell wall))
        by congruence.
      rewrite E, svg_text. split.
      * apply (safe_not_contains "<" "c").
        apply safe_app; [apply safe_app|]; [|reflexivity|reflexivity].
        apply safe_join; [reflexivity | apply svg_body_no_circle].
      * eexists. reflexivity.
    + rewrite generate_svg_overflow in H by assumption. discriminate H.
  - intros py_int py_float args p Hp body markers.
    destruct (preview_parse_range _ _ _ _ Hp) as [Hc Hr].
    assert (Hsvg : generate_svg (pv_cols p) (pv_rows p) (pv_cell p) (pv_wall p)
                   = Return (body +:+ "</svg>")).
    { rewrite generate_svg_lines by assumption. f_equal. apply svg_text. }
    split; [exact Hsvg|].
    unfold preview_svg. rewrite Hp. unfold preview_render, try_bind.
    rewrite Hsvg. destruct (pv_post_enable p); [|reflexivity].
    rewrite (run_lines_emits _ _
               (emits_circles (pv_cols p) (pv_rows p) (pv_cell p) (pv_post_d p)
                  Hc Hr)).
    do 2 f_equal.
    change "</svg>" with closing. rewrite replace_closing; [reflexivity|].
    apply no_pair_any_prev. apply safe_app; [|reflexivity].
    apply safe_join; [reflexivity | apply svg_body_no_g_gt].
Qed.

Lemma preview_markers_witness :
  preview_svg no_int eight_only (<["posts" := "1"]> {[ "post_d" := "8.0" ]})
  = Return (ResponseOk
      (join newline
         [ "<svg xmlns=" +:+ dq +:+ "http://www.w3.org/2000/svg" +:+ dq
             +:+ " viewBox=" +:+ dq +:+ "0 0 153.0 102.0" +:+ dq
             +:+ " width=" +:+ dq +:+ "153.0px" +:+ dq +:+ " height=" +:+ dq
             +:+ "102.0px" +:+ dq +:+ ">";
           "<style>rect{fill:#f5f5f5;stroke:#333;stroke-width:0.5}</style>";
           "<rect x=" +:+ dq +:+ "0" +:+ dq +:+ " y=" +:+ dq +:+ "0" +:+ dq
             +:+ " width=" +:+ dq +:+ "153.0" +:+ dq +:+ " height=" +:+ dq
             +:+ "102.0" +:+ dq +:+ " fill=" +:+ dq +:+ "none" +:+ dq
             +:+ " stroke=" +:+ dq +:+ "#000" +:+ dq +:+ " stroke-width="
             +:+ dq +:+ "1" +:+ dq +:+ "/>";
           "<rect x=" +:+ dq +:+ "1.5" +:+ dq +:+ " y=" +:+ dq +:+ "1.5"
             +:+ dq +:+ " width=" +:+ dq +:+ "48.0" +:+ dq +:+ " height="
             +:+ dq +:+ "48.0" +:+ dq +:+ " />";
           "<rect x=" +:+ dq +:+ "1.5" +:+ dq +:+ " y=" +:+ dq +:+ "52.5"
             +:+ dq +:+ " width=" +:+ dq +:+ "48.0" +:+ dq +:+ " height="
             +:+ dq +:+ "48.0" +:+ dq +:+ " />";
           "<rect x=" +:+ dq +:+ "52.5" +:+ dq +:+ " y=" +:+ dq +:+ "1.5"
             +:+ dq +:+ " width=" +:+ dq +:+ "48.0" +:+ dq +:+ " height="
             +:+ dq +:+ "48.0" +:+ dq +:+ " />";
           "<rect x=" +:+ dq +:+ "52.5" +:+ dq +:+ " y=" +:+ dq +:+ "52.5"
             +:+ dq +:+ " width=" +:+ dq +:+ "48.0" +:+ dq +:+ " height="
             +:+ dq +:+ "48.0" +:+ dq +:+ " />";
           "<rect x=" +:+ dq +:+ "103.5" +:+ dq +:+ " y=" +:+ dq +:+ "1.5"
             +:+ dq +:+ " width=" +:+ dq +:+ "48.0" +:+ dq +:+ " height="
             +:+ dq +:+ "48.0" +:+ dq +:+ " />";
           "<rect x=" +:+ dq +:+ "103.5" +:+ dq +:+ " y=" +:+ dq +:+ "52.5"
             +:+ dq +:+ " width=" +:+ dq +:+ "48.0" +:+ dq +:+ " height="
             +:+ dq +:+ "48.0" +:+ dq +:+ " />";
           EmptyString;
           "<circle cx=" +:+ dq +:+ "25.5" +:+ dq +:+ " cy=" +:+ dq
             +:+ "25.5" +:+ dq +:+ " r=" +:+ dq +:+ "4.0" +:+ dq
             +:+ " fill=" +:+ dq +:+ "#666" +:+ dq +:+ " opacity=" +:+ dq
             +:+ "0.6" +:+ dq +:+ " />";
           "<circle cx=" +:+ dq +:+ "25.5" +:+ dq +:+ " cy=" +:+ dq
             +:+ "76.5" +:+ dq +:+ " r=" +:+ dq +:+ "4.0" +:+ dq
             +:+ " fill=" +:+ dq +:+ "#666" +:+ dq +:+ " opacity=" +:+ dq
             +:+ "0.6" +:+ dq +:+ " />";
           "<circle cx=" +:+ dq +:+ "76.5" +:+ dq +:+ " cy=" +:+ dq
             +:+ "25.5" +:+ dq +:+ " r=" +:+ dq +:+ "4.0" +:+ dq
             +:+ " fill=" +:+ dq +:+ "#666" +:+ dq +:+ " opacity=" +:+ dq
             +:+ "0.6" +:+ dq +:+ " />";
           "<circle cx=" +:+ dq +:+ "76.5" +:+ dq +:+ " cy=" +:+ dq
             +:+ "76.5" +:+ dq +:+ " r=" +:+ dq +:+ "4.0" +:+ dq
             +:+ " fill=" +:+ dq +:+ "#666" +:+ dq +:+ " opacity=" +:+ dq
             +:+ "0.6" +:+ dq +:+ " />";
           "<circle cx=" +:+ dq +:+ "127.5" +:+ dq +:+ " cy=" +:+ dq
             +:+ "25.5" +:+ dq +:+ " r=" +:+ dq +:+ "4.0" +:+ dq
             +:+ " fill=" +:+ dq +:+ "#666" +:+ dq +:+ " opacity=" +:+ dq
             +:+ "0.6" +:+ dq +:+ " />";
           "<circle cx=" +:+ dq +:+ "127.5" +:+ dq +:+ " cy=" +:+ dq
             +:+ "76.5" +:+ dq +:+ " r=" +:+ dq +:+ "4.0" +:+ dq
             +:+ " fill=" +:+ dq +:+ "#666" +:+ dq +:+ " opacity=" +:+ dq
             +:+ "0.6" +:+ dq +:+ " />";
           "</svg>" ])
      "image/svg+xml")
  /\ preview_svg no_int no_float ∅
     = Return (ResponseOk
         (join newline
            [ "<svg xmlns=" +:+ dq +:+ "http://www.w3.org/2000/svg" +:+ dq
                +:+ " viewBox=" +:+ dq +:+ "0 0 153.0 102.0" +:+ dq
                +:+ " width=" +:+ dq +:+ "153.0px" +:+ dq +:+ " height="
                +:+ dq +:+ "102.0px" +:+ dq +:+ ">";
              "<style>rect{fill:#f5f5f5;stroke:#333;stroke-width:0.5}</style>";
              "<rect x=" +:+ dq +:+ "0" +:+ dq +:+ " y=" +:+ dq +:+ "0"
                +:+ dq +:+ " width=" +:+ dq +:+ "153.0" +:+ dq
                +:+ " height=" +:+ dq +:+ "102.0" +:+ dq +:+ " fill=" +:+ dq
                +:+ "none" +:+ dq +:+ " stroke=" +:+ dq +:+ "#000" +:+ dq
                +:+ " stroke-width=" +:+ dq +:+ "1" +:+ dq +:+ "/>";
              "<rect x=" +:+ dq +:+ "1.5" +:+ dq +:+ " y=" +:+ dq +:+ "1.5"
                +:+ dq +:+ " width=" +:+ dq +:+ "48.0" +:+ dq +:+ " height="
                +:+ dq +:+ "48.0" +:+ dq +:+ " />";
              "<rect x=" +:+ dq +:+ "1.5" +:+ dq +:+ " y=" +:+ dq +:+ "52.5"
                +:+ dq +:+ " width=" +:+ dq +:+ "48.0" +:+ dq +:+ " height="
                +:+ dq +:+ "48.0" +:+ dq +:+ " />";
              "<rect x=" +:+ dq +:+ "52.5" +:+ dq +:+ " y=" +:+ dq +:+ "1.5"
                +:+ dq +:+ " width=" +:+ dq +:+ "48.0" +:+ dq +:+ " height="
                +:+ dq +:+ "48.0" +:+ dq +:+ " />";
              "<rect x=" +:+ dq +:+ "52.5" +:+ dq +:+ " y=" +:+ dq
                +:+ "52.5" +:+ dq +:+ " width=" +:+ dq +:+ "48.0" +:+ dq
                +:+ " height=" +:+ dq +:+ "48.0" +:+ dq +:+ " />";
              "<rect x=" +:+ dq +:+ "103.5" +:+ dq +:+ " y=" +:+ dq
                +:+ "1.5" +:+ dq +:+ " width=" +:+ dq +:+ "48.0" +:+ dq
                +:+ " height=" +:+ dq +:+ "48.0" +:+ dq +:+ " />";
              "<rect x=" +:+ dq +:+ "103.5" +:+ dq +:+ " y=" +:+ dq
                +:+ "52.5" +:+ dq +:+ " width=" +:+ dq +:+ "48.0" +:+ dq
                +:+ " height=" +:+ dq +:+ "48.0" +:+ dq +:+ " />";
              "</svg>" ])
         "image/svg+xml").
Proof.
  split.
  - refine (eq_trans
              (proj2 (proj2 preview_markers no_int eight_only
                        (<["posts" := "1"]> {[ "post_d" := "8.0" ]}) _ _)) _).
    + vm_compute. reflexivity.
    + vm_compute. reflexivity.
  - refine (eq_trans (proj2 (proj2 preview_markers no_int no_float ∅ _ _)) _).
    + vm_compute. reflexivity.
    + vm_compute. reflexivity.
Defined.
End Markers.

(** ** The floor grid *)

Module Ribs.
Import PyNum PyExec PyVal App Routes Lines Text.
Import TextFacts PairFacts RunFacts GenFacts.
Import CellFacts LineFacts RouteFacts RangeFacts.
Local Open Scope Q_scope.



End Ribs.

(** ** Defaults of the optional features *)

Module Defaults.
Import PyNum PyExec PyVal App Routes Lines Text.
Import TextFacts PairFacts RunFacts GenFacts.
Import CellFacts LineFacts RouteFacts RangeFacts.

(** C4 (as stated, refuted): a download request with no parameter at all
    gets a document with the floor grid section, because the route reads
    the missing [grid] parameter as ['1']. *)
Lemma download_defaults_enable_floor_grid :
  download_scad no_int no_float ∅
  = Return (SendFile
      (join newline
         [ "// Generated Gridfinity SCAD"; "cell = 51.0;"; "cols = 3;";
           "rows = 2;"; "height = 12.0;"; "wall = 3.0;"; "clearance = 0.2;";
           "module pocket() {";
           "  translate([wall/2 + clearance/2, wall/2 + clearance/2, 0])";
           "    cube([47.8, 47.8, height], center=false);"; "}";
           "// outer tray"; "module tray() {"; "  difference() {";
           "    cube([153.0, 102.0, height + wall], center=false);";
           "    for (x = [0:2]) for (y = [0:1])";
           "      translate([x*cell, y*cell, 0]) pocket();"; "  }"; "}";
           "module floor_grid() {"; "  union() {";
           "    for (x = [0.75:6.0:152.25]) translate([x, 0, 3.0]) cube([1.5, 102.0, 2.5], center=false);";
           "    for (y = [0.75:6.0:101.25]) translate([0, y, 3.0]) cube([153.0, 1.5, 2.5], center=false);";
           "  }"; "}"; "floor_grid();"; "tray();" ])
      "text/plain" "gridfinity_3x2_51mm.scad").
Proof. vm_compute. reflexivity. Qed.

(** C4 (amended): called without its optional arguments, [generate_scad]
    returns the header and the call of [tray()], with no floor grid and no
    posts section. The download route does not leave them out: when the
    request gives neither [grid] nor [posts], the dictionaries it builds
    have the floor grid enabled and the posts disabled, and the document
    it sends has the floor grid section and no posts section. *)
Theorem feature_defaults :
  (forall cols rows cell height wall clearance,
     float_range cols -> float_range rows ->
     generate_scad cols rows cell height wall clearance None None
     = Return (join newline
         (scad_header cols rows cell height wall clearance ++ [ "tray();" ])))
  /\ (forall py_int py_float args scad mimetype name,
        args !! "grid" = None -> args !! "posts" = None ->
        download_scad py_int py_float args
        = Return (SendFile scad mimetype name) ->
        exists p g ps,
          scad_parse py_int py_float args = Return p
          /\ grid_of_args py_float args = Return g
          /\ posts_of_args py_float args = Return ps
          /\ enabled (Some g) = true /\ enabled (Some ps) = false
          /\ scad = join newline
               (scad_header (sp_cols p) (sp_rows p) (sp_cell p) (sp_height p)
                  (sp_wall p) 0.2
                ++ [ "module floor_grid() {";
                     "  union() {";
                     rib_loop_x (grid_rib (Some g)) (grid_pitch (Some g))
                       (grid_ribh (Some g)) (sp_wall p)
                       (Z2float (sp_cols p) * sp_cell p)
                       (Z2float (sp_rows p) * sp_cell p);
                     rib_loop_y (grid_rib (Some g)) (grid_pitch (Some g))
                       (grid_ribh (Some g)) (sp_wall p)
                       (Z2float (sp_cols p) * sp_cell p)
                       (Z2float (sp_rows p) * sp_cell p);
                     "  }";
                     "}";
                     "floor_grid();";
                     "tray();" ])).
Proof.
  split.
  - intros cols rows cell height wall clearance Hc Hr.
    rewrite generate_scad_lines by assumption. reflexivity.
  - intros py_int py_float args scad mimetype name Hg Hp H.
    destruct (download_scad_sends _ _ _ _ _ _ H)
      as (p & g & ps & Hparse & Hgrid & Hposts & ->).
    pose proof (grid_of_args_enabled _ _ _ Hgrid) as Eg.
    pose proof (posts_of_args_enabled _ _ _ Hposts) as Ep.
    rewrite arg_flag_missing in Eg, Ep by assumption.
    change (enabled (Some g) = true) in Eg.
    change (enabled (Some ps) = false) in Ep.
    exists p, g, ps. do 5 (split; [assumption|]).
    unfold scad_lines, floor_grid_lines, posts_lines. rewrite Eg, Ep.
    reflexivity.
Qed.

Lemma feature_defaults_witness :
  generate_scad 3 2 51.0 12.0 3.0 0.2 None None
  = Return (join newline
      [ "// Generated Gridfinity SCAD"; "cell = 51.0;"; "cols = 3;";
        "rows = 2;"; "height = 12.0;"; "wall = 3.0;"; "clearance = 0.2;";
        "module pocket() {";
        "  translate([wall/2 + clearance/2, wall/2 + clearance/2, 0])";
        "    cube([47.8, 47.8, height], center=false);"; "}";
        "// outer tray"; "module tray() {"; "  difference() {";
        "    cube([153.0, 102.0, height + wall], center=false);";
        "    for (x = [0:2]) for (y = [0:1])";
        "      translate([x*cell, y*cell, 0]) pocket();"; "  }"; "}";
        "tray();" ])
  /\ exists p g ps,
       scad_parse no_int no_float ∅ = Return p
       /\ grid_of_args no_float ∅ = Return g
       /\ posts_of_args no_float ∅ = Return ps
       /\ enabled (Some g) = true /\ enabled (Some ps) = false.
Proof.
  split.
  - refine (eq_trans (proj1 feature_defaults 3 2 51.0%float 12.0%float
                       3.0%float 0.2%float _ _) _);
      vm_compute; reflexivity.
  - destruct (proj2 feature_defaults no_int no_float ∅ _ _ _
                (lookup_empty "grid") (lookup_empty "posts")
                (download_scad_no_args no_int no_float))
      as (p & g & ps & H1 & H2 & H3 & H4 & H5 & _).
    exists p, g, ps. repeat split; assumption.
Defined.
End Defaults.

(** * Further properties *)

(** ** Feature switches and defaults *)

Module Switches.
Import PyNum PyExec PyVal App Routes Stl Lines Text.
Import TextFacts PairFacts RunFacts GenFacts.
Import CellFacts LineFacts RouteFacts RangeFacts.
Import CountFacts.

(** X1: a feature section is emitted exactly when its dictionary is given
    and holds a true value under ['enable']. The document [generate_scad]
    returns calls [floor_grid();] exactly when the grid dictionary is such,
    and [posts();] exactly when the posts dictionary is: [None], a
    dictionary without the key (the empty one among them) and a false
    value ([False], [0.0], [-0.0]) all leave the section out. *)
Theorem section_switches cols rows cell height wall clearance grid posts doc :
  generate_scad cols rows cell height wall clearance grid posts = Return doc ->
  (contains "floor_grid();" doc
   <-> exists g v, grid = Some g /\ g !! "enable" = Some v /\ truthy v = true)
  /\ (contains "posts();" doc
      <-> exists p v, posts = Some p /\ p !! "enable" = Some v
                      /\ truthy v = true).
Proof.
  intros H.
  destruct (decide (float_range cols /\ float_range rows)) as [[Hc Hr]|Hn];
    [|rewrite generate_scad_overflow in H by assumption; discriminate H].
  rewrite generate_scad_lines in H by assumption.
  assert (E : doc = join newline
                      (scad_lines cols rows cell height wall clearance
                         grid posts)) by congruence.
  clear H. subst doc. rewrite <- !enabled_true_iff. split; split.
  - intros Hin. destruct (enabled grid) eqn:Eg; [reflexivity|exfalso].
    rewrite (scad_lines_grid_off _ _ _ _ _ _ _ _ Eg) in Hin.
    apply (contains_tail "floor" "_grid();") in Hin. revert Hin.
    apply (safe_not_contains "_" "g").
    apply safe_join; [reflexivity | apply no_grid_no_underscore_g].
  - intros Eg. apply contains_join.
    unfold scad_lines, floor_grid_lines. rewrite Eg.
    rewrite !elem_of_app. right. left.
    do 6 apply list_elem_of_further. apply list_elem_of_here.
  - intros Hin. destruct (enabled posts) eqn:Ep; [reflexivity|exfalso].
    rewrite (scad_lines_posts_off _ _ _ _ _ _ _ _ Ep) in Hin.
    apply (contains_tail "post" "s();") in Hin. revert Hin.
    apply (safe_not_contains "s" "(").
    apply safe_join; [reflexivity | apply no_posts_no_s_bracket].
  - intros Ep. apply contains_join.
    unfold scad_lines, posts_lines. rewrite Ep.
    rewrite !elem_of_app. right. right. left. right. right.
    do 2 apply list_elem_of_further. apply list_elem_of_here.
Qed.

Lemma section_switches_witness :
  contains "floor_grid();" default_download
  /\ ~ contains "posts();" default_download.
Proof.
  pose proof (download_scad_no_args no_int no_float) as D.
  assert (H : generate_scad 3 2 51.0 12.0 3.0 0.2
                (Some (<["enable" := PyBool true]>
                       (<["pitch" := PyFloat 6.0]>
                        (<["thickness" := PyFloat 1.5]>
                         (<["height" := PyFloat 2.5]> ∅)))))
                (Some (<["enable" := PyBool false]>
                       (<["diameter" := PyFloat 6.0]>
                        (<["height" := PyFloat 4.0]> ∅))))
              = Return default_download) by (vm_compute; reflexivity).
  destruct (section_switches _ _ _ _ _ _ _ _ _ H) as [[_ H1] [H2 _]].
  split.
  - apply H1. eexists _, (PyBool true). repeat split.
  - intros Hin. destruct (H2 Hin) as (p & v & [= <-] & Hv & Ht).
    vm_compute in Hv. injection Hv as <-. discriminate Ht.
Defined.

Lemma enabled_insert_other k v (g : gmap string pyval) :
  k <> "enable" -> g !! k = None ->
  enabled (Some (<[k := v]> g)) = enabled (Some g).
Proof.
  intros Hk Hg. unfold enabled.
  rewrite lookup_insert_ne by congruence.
  destruct (Nat.eqb_spec (size g) 0) as [E|_].
  - apply map_size_empty_iff in E. subst g.
    rewrite lookup_empty. destruct (_ =? _)%nat; reflexivity.
  - destruct (Nat.eqb_spec (size (<[k := v]> g)) 0) as [E|_]; [|reflexivity].
    apply map_size_empty_iff in E. exfalso.
    exact (insert_non_empty g k v E).
Qed.

Lemma dict_get_insert_default (g : gmap string pyval) k v k' d :
  g !! k = None -> (k' = k -> d = v) ->
  dict_get (<[k := v]> g) k' d = dict_get g k' d.
Proof.
  intros Hg Hd. unfold dict_get.
  destruct (decide (k' = k)) as [->|Hne].
  - rewrite lookup_insert_eq, Hg. symmetry. apply Hd. reflexivity.
  - rewrite lookup_insert_ne by congruence. reflexivity.
Qed.

Lemma scad_lines_grid_default cols rows cell height wall clearance g posts k v :
  k <> "enable" -> g !! k = None ->
  (k = "pitch" -> v = PyFloat 6.0) ->
  (k = "thickness" -> v = PyFloat 1.5) ->
  (k = "height" -> v = PyFloat 2.5) ->
  scad_lines cols rows cell height wall clearance (Some (<[k := v]> g)) posts
  = scad_lines cols rows cell height wall clearance (Some g) posts.
Proof.
  intros Hk Hg H1 H2 H3. unfold scad_lines. do 2 f_equal.
  unfold floor_grid_lines, grid_pitch, grid_rib, grid_ribh.
  rewrite enabled_insert_other by assumption. simpl default.
  rewrite !dict_get_insert_default by (assumption || (intros; symmetry; auto)).
  reflexivity.
Qed.

Lemma scad_lines_posts_default cols rows cell height wall clearance grid p k v :
  k <> "enable" -> p !! k = None ->
  (k = "diameter" -> v = PyFloat 6.0) ->
  (k = "height" -> v = PyFloat 4.0) ->
  scad_lines cols rows cell height wall clearance grid (Some (<[k := v]> p))
  = scad_lines cols rows cell height wall clearance grid (Some p).
Proof.
  intros Hk Hp H1 H2. unfold scad_lines. do 3 f_equal.
  unfold posts_lines, cylinder, post_d, post_h.
  rewrite enabled_insert_other by assumption. simpl default.
  rewrite !dict_get_insert_default by (assumption || (intros; symmetry; auto)).
  reflexivity.
Qed.

Lemma generate_scad_same_lines cols rows cell height wall clearance g1 p1 g2 p2 :
  scad_lines cols rows cell height wall clearance g1 p1
  = scad_lines cols rows cell height wall clearance g2 p2 ->
  generate_scad cols rows cell height wall clearance g1 p1
  = generate_scad cols rows cell height wall clearance g2 p2.
Proof.
  intros H.
  destruct (decide (float_range cols /\ float_range rows)) as [[Hc Hr]|Hn].
  - rewrite !generate_scad_lines by assumption. rewrite H. reflexivity.
  - rewrite !generate_scad_overflow by assumption. reflexivity.
Qed.

(** X2: a key missing from a feature dictionary counts as its default:
    the pitch 6.0, the rib thickness 1.5 and the rib height 2.5 of the
    floor grid, the diameter 6.0 and the height 4.0 of the posts. Writing
    the default into the dictionary changes nothing in the outcome. *)
Theorem missing_key_is_default cols rows cell height wall clearance :
  (forall g posts k v,
     g !! k = None ->
     (k, v) ∈ [ ("pitch", PyFloat 6.0); ("thickness", PyFloat 1.5);
                ("height", PyFloat 2.5) ] ->
     generate_scad cols rows cell height wall clearance
       (Some (<[k := v]> g)) posts
     = generate_scad cols rows cell height wall clearance (Some g) posts)
  /\ (forall grid p k v,
        p !! k = None ->
        (k, v) ∈ [ ("diameter", PyFloat 6.0); ("height", PyFloat 4.0) ] ->
        generate_scad cols rows cell height wall clearance
          grid (Some (<[k := v]> p))
        = generate_scad cols rows cell height wall clearance grid (Some p)).
Proof.
  split.
  - intros g posts k v Hg Hkv. apply generate_scad_same_lines.
    apply scad_lines_grid_default; try assumption;
      repeat (apply elem_of_cons in Hkv as [[= -> ->]|Hkv]);
      try (apply elem_of_nil in Hkv; contradiction);
      try discriminate; try reflexivity; intros [=].
  - intros grid p k v Hp Hkv. apply generate_scad_same_lines.
    apply scad_lines_posts_default; try assumption;
      repeat (apply elem_of_cons in Hkv as [[= -> ->]|Hkv]);
      try (apply elem_of_nil in Hkv; contradiction);
      try discriminate; try reflexivity; intros [=].
Qed.

Lemma missing_key_is_default_witness :
  generate_scad 3 2 51.0 12.0 3.0 0.2
    (Some (<["pitch" := PyFloat 6.0]> (<["enable" := PyBool true]> ∅))) None
  = generate_scad 3 2 51.0 12.0 3.0 0.2
      (Some (<["enable" := PyBool true]> ∅)) None.
Proof.
  apply (proj1 (missing_key_is_default 3 2 51.0 12.0 3.0 0.2)).
  - reflexivity.
  - left.
Defined.
End Switches.

(** ** Shape of the documents *)

Module Documents.
Import PyNum PyExec PyVal App Routes Stl Lines Text.
Import TextFacts PairFacts RunFacts GenFacts.
Import CellFacts LineFacts RouteFacts RangeFacts.
Import CountFacts.

(** X3: [generate_svg] returns its document exactly when [cols] and [rows]
    convert to floats, and otherwise raises [OverflowError] at its first two
    statements; [cell] and [wall] play no part in that, not even when they
    are not numbers. *)
Theorem generate_svg_outcome cols rows cell wall :
  generate_svg cols rows cell wall
  = if decide (float_range cols /\ float_range rows)
    then Return (join newline (svg_lines cols rows cell wall))
    else Raise OverflowError.
Proof.
  destruct (decide _) as [[Hc Hr]|H].
  - apply generate_svg_lines; assumption.
  - apply generate_svg_overflow, H.
Qed.

Lemma cells_empty cols rows : cols <= 0 \/ rows <= 0 -> cells cols rows = [].
Proof.
  intros H. unfold cells, range. destruct H as [H|H].
  - rewrite (seqZ_nil 0 cols) by lia. reflexivity.
  - rewrite (seqZ_nil 0 rows) by lia.
    induction (seqZ 0 cols) as [|x xs IH]; [reflexivity | exact IH].
Qed.

(** X4: the number of lines. The model text has 20 lines, 7 more with the
    floor grid, and 5 more plus one per cell with the posts; the preview
    has 4 lines plus one per cell. *)
Theorem line_counts cols rows cell height wall clearance grid posts :
  0 <= cols -> 0 <= rows -> float_range cols -> float_range rows ->
  (exists ls,
     run_lines (generate_scad_body cols rows cell height wall clearance
                  grid posts) = Return ls
     /\ Z.of_nat (length ls)
        = 20 + (if enabled grid then 7 else 0)
          + (if enabled posts then 5 + cols * rows else 0))
  /\ (exists ls,
        run_lines (generate_svg_body cols rows cell wall) = Return ls
        /\ Z.of_nat (length ls) = 4 + cols * rows).
Proof.
  intros Hc0 Hr0 Hc Hr. split.
  - eexists. split; [apply run_lines_emits, emits_scad; assumption|].
    unfold scad_lines, floor_grid_lines, posts_lines.
    rewrite !length_app.
    destruct (enabled grid), (enabled posts);
      rewrite ?length_app, ?length_map, ?cells_length; simpl length; nia.
  - eexists. split; [apply run_lines_emits, emits_svg; assumption|].
    unfold svg_lines. rewrite !length_app, length_map, cells_length.
    simpl length. nia.
Qed.

Lemma line_counts_witness :
  exists ls,
    run_lines (generate_svg_body 3 2 51.0 3.0) = Return ls
    /\ Z.of_nat (length ls) = 4 + 3 * 2.
Proof.
  refine (proj2 (line_counts 3 2 51.0 12.0 3.0 0.2 None None _ _ _ _));
    first [lia | apply float_range_small; lia].
Defined.

(** X5: a grid without cells. When [cols <= 0] or [rows <= 0] (the
    generators do not clamp), both still return: the preview has its
    border and no pocket, and an enabled posts module is printed with an
    empty union. *)
Theorem empty_grid cols rows cell height wall clearance grid posts :
  cols <= 0 \/ rows <= 0 -> float_range cols -> float_range rows ->
  generate_svg cols rows cell wall
  = Return (join newline
      [ svg_open (Z2float cols * cell) (Z2float rows * cell);
        svg_style;
        border_rect (Z2float cols * cell) (Z2float rows * cell);
        "</svg>" ])
  /\ generate_scad cols rows cell height wall clearance grid posts
     = Return (join newline
         (scad_header cols rows cell height wall clearance
          ++ floor_grid_lines cols rows cell wall grid
          ++ (if enabled posts
              then [ "module posts() {"; "  union() {"; "  }"; "}";
                     "posts();" ]
              else [])
          ++ [ "tray();" ])).
Proof.
  intros H Hc Hr. split.
  - rewrite generate_svg_lines by assumption.
    unfold svg_lines. rewrite (cells_empty _ _ H). reflexivity.
  - rewrite generate_scad_lines by assumption.
    unfold scad_lines, posts_lines. rewrite (cells_empty _ _ H).
    destruct (enabled posts); reflexivity.
Qed.

Lemma empty_grid_witness :
  generate_svg 0 2 51.0 3.0
  = Return (join newline
      [ svg_open 0.0 102.0; svg_style; border_rect 0.0 102.0; "</svg>" ]).
Proof.
  refine (eq_trans (proj1 (empty_grid 0 2 51.0 12.0 3.0 0.2 None None _ _ _)) _).
  - left. lia.
  - apply float_range_small. lia.
  - apply float_range_small. lia.
  - vm_compute. reflexivity.
Defined.

(** X6: the optional sections compose. There are a header, a floor grid
    section that depends on the grid dictionary only and a posts section
    that depends on the posts dictionary only, such that the four
    documents with and without each feature are made of them, in that
    order, before the call of [tray()]. An enabled floor grid section has
    7 lines, an enabled posts section 5 lines and one per cell. *)
Theorem sections_compose cols rows cell height wall clearance grid posts :
  float_range cols -> float_range rows ->
  exists header grid_section posts_section,
    generate_scad cols rows cell height wall clearance None None
    = Return (join newline (header ++ [ "tray();" ]))
    /\ generate_scad cols rows cell height wall clearance grid None
       = Return (join newline (header ++ grid_section ++ [ "tray();" ]))
    /\ generate_scad cols rows cell height wall clearance None posts
       = Return (join newline (header ++ posts_section ++ [ "tray();" ]))
    /\ generate_scad cols rows cell height wall clearance grid posts
       = Return (join newline
           (header ++ grid_section ++ posts_section ++ [ "tray();" ]))
    /\ length grid_section = (if enabled grid then 7 else 0)%nat
    /\ length posts_section
       = (if enabled posts then 5 + Z.to_nat cols * Z.to_nat rows else 0)%nat.
Proof.
  intros Hc Hr.
  exists (scad_header cols rows cell height wall clearance),
         (floor_grid_lines cols rows cell wall grid),
         (posts_lines cols rows cell wall posts).
  rewrite !generate_scad_lines by assumption.
  unfold scad_lines.
  change (floor_grid_lines cols rows cell wall None) with (@nil string).
  change (posts_lines cols rows cell wall None) with (@nil string).
  rewrite ?app_nil_r. do 4 (split; [reflexivity|]). split.
  - unfold floor_grid_lines. destruct (enabled grid); reflexivity.
  - unfold posts_lines. destruct (enabled posts); [|reflexivity].
    rewrite !length_app, length_map, cells_length. simpl. lia.
Qed.

Lemma sections_compose_witness :
  exists header grid_section posts_section,
    generate_scad 2 2 51.0 12.0 3.0 0.2 None None
    = Return (join newline (header ++ [ "tray();" ]))
    /\ generate_scad 2 2 51.0 12.0 3.0 0.2
         (Some (<["enable" := PyBool true]> {[ "pitch" := PyFloat 5.0 ]})) None
       = Return (join newline (header ++ grid_section ++ [ "tray();" ]))
    /\ generate_scad 2 2 51.0 12.0 3.0 0.2 None
         (Some (<["enable" := PyBool true]> {[ "diameter" := PyFloat 8.0 ]}))
       = Return (join newline (header ++ posts_section ++ [ "tray();" ]))
    /\ generate_scad 2 2 51.0 12.0 3.0 0.2
         (Some (<["enable" := PyBool true]> {[ "pitch" := PyFloat 5.0 ]}))
         (Some (<["enable" := PyBool true]> {[ "diameter" := PyFloat 8.0 ]}))
       = Return (join newline
           (header ++ grid_section ++ posts_section ++ [ "tray();" ]))
    /\ length grid_section = 7%nat
    /\ length posts_section = 9%nat.
Proof.
  destruct (sections_compose 2 2 51.0 12.0 3.0 0.2
              (Some (<["enable" := PyBool true]> {[ "pitch" := PyFloat 5.0 ]}))
              (Some (<["enable" := PyBool true]>
                     {[ "diameter" := PyFloat 8.0 ]})))
    as (header & grid_section & posts_section & H1 & H2 & H3 & H4 & H5 & H6);
    try (apply float_range_small; lia).
  exists header, grid_section, posts_section.
  do 4 (split; [assumption|]). split.
  - refine (eq_trans H5 _). vm_compute. reflexivity.
  - refine (eq_trans H6 _). vm_compute. reflexivity.
Defined.

(** X7: the two documents agree. For the same grid, the preview and the
    model text print the same envelope, [cols*cell] by [rows*cell]: the
    outer cube of the one, the viewport and the border of the other. And
    the circles the preview route builds have the centres of the
    cylinders of the posts module, printed alike and in the same order,
    one per cell. *)
Theorem documents_agree cols rows cell height wall clearance grid
    (posts : gmap string pyval) (v : pyval) (d h marker_d : float) :
  float_range cols -> float_range rows ->
  posts !! "enable" = Some v -> truthy v = true ->
  posts !! "diameter" = Some (PyFloat d) ->
  posts !! "height" = Some (PyFloat h) ->
  let W := float_repr (Z2float cols * cell) in
  let H := float_repr (Z2float rows * cell) in
  let centres :=
    map (fun c : Z * Z =>
           (float_repr (Z2float (fst c) * cell + cell / 2),
            float_repr (Z2float (snd c) * cell + cell / 2)))
        (cells cols rows) in
  (exists before after,
     run_lines (generate_scad_body cols rows cell height wall clearance
                  grid (Some posts))
     = Return (before
               ++ [ "    cube([" +:+ W +:+ ", " +:+ H
                      +:+ ", height + wall], center=false);" ]
               ++ after)%list)
  /\ (exists after,
        run_lines (generate_svg_body cols rows cell wall)
        = Return ([ "<svg xmlns=" +:+ dq +:+ "http://www.w3.org/2000/svg"
                      +:+ dq +:+ " viewBox=" +:+ dq
                      +:+ ("0 0 " +:+ W +:+ " " +:+ H)
                      +:+ dq +:+ " width=" +:+ dq +:+ W +:+ "px" +:+ dq
                      +:+ " height=" +:+ dq +:+ H +:+ "px" +:+ dq +:+ ">";
                    "<style>rect{fill:#f5f5f5;stroke:#333;stroke-width:0.5}</style>";
                    "<rect x=" +:+ dq +:+ "0" +:+ dq +:+ " y=" +:+ dq +:+ "0"
                      +:+ dq +:+ " width=" +:+ dq +:+ W +:+ dq +:+ " height="
                      +:+ dq +:+ H +:+ dq +:+ " fill=" +:+ dq +:+ "none"
                      +:+ dq +:+ " stroke=" +:+ dq +:+ "#000" +:+ dq
                      +:+ " stroke-width=" +:+ dq +:+ "1" +:+ dq +:+ "/>" ]
                  ++ after)%list)
  /\ (exists before,
        run_lines (generate_scad_body cols rows cell height wall clearance
                     grid (Some posts))
        = Return (before
                  ++ map (fun xy : string * string =>
                            "    translate([" +:+ fst xy +:+ ", " +:+ snd xy
                            +:+ ", " +:+ float_repr wall
                            +:+ "]) cylinder(h=" +:+ float_repr h +:+ ", r="
                            +:+ float_repr (d / 2) +:+ ", $fn=32);")
                         centres
                  ++ [ "  }"; "}"; "posts();"; "tray();" ])%list)
  /\ run_lines (circles_body cols rows cell marker_d)
     = Return (map (fun xy : string * string =>
                      "<circle cx=" +:+ dq +:+ fst xy +:+ dq +:+ " cy="
                      +:+ dq +:+ snd xy +:+ dq +:+ " r=" +:+ dq
                      +:+ float_repr (marker_d / 2) +:+ dq +:+ " fill="
                      +:+ dq +:+ "#666" +:+ dq +:+ " opacity=" +:+ dq
                      +:+ "0.6" +:+ dq +:+ " />")
                   centres)
  /\ length centres = (Z.to_nat cols * Z.to_nat rows)%nat.
Proof.
  intros Hc Hr Hen Hv Hd Hh W H centres.
  rewrite (run_lines_emits _ _ (emits_scad cols rows cell height wall clearance
                                  grid (Some posts) Hc Hr)).
  rewrite (run_lines_emits _ _ (emits_svg cols rows cell wall Hc Hr)).
  rewrite (run_lines_emits _ _ (emits_circles cols rows cell marker_d Hc Hr)).
  split; [|split; [|split; [|split]]].
  - exists (take 14 (scad_header cols rows cell height wall clearance)).
    eexists. reflexivity.
  - eexists. reflexivity.
  - exists (scad_header cols rows cell height wall clearance
            ++ floor_grid_lines cols rows cell wall grid
            ++ [ "module posts() {"; "  union() {" ])%list.
    unfold scad_lines, posts_lines, cylinder, post_d, post_h.
    rewrite (enabled_lookup posts v Hen Hv). simpl default.
    unfold dict_get. rewrite Hd, Hh.
    subst centres. rewrite map_map, <- !app_assoc. reflexivity.
  - subst centres. rewrite map_map. reflexivity.
  - subst centres. rewrite length_map. apply cells_length.
Qed.

Lemma documents_agree_witness :
  let centres := [ ("25.5", "25.5"); ("25.5", "76.5");
                   ("76.5", "25.5"); ("76.5", "76.5") ] in
  (exists before after,
     run_lines (generate_scad_body 2 2 51.0 12.0 3.0 0.2 None
                  (Some (<["enable" := PyBool true]>
                         (<["diameter" := PyFloat 8.0]>
                          {[ "height" := PyFloat 5.5 ]}))))
     = Return (before
               ++ [ "    cube([102.0, 102.0, height + wall], center=false);" ]
               ++ after)%list)
  /\ (exists after,
        run_lines (generate_svg_body 2 2 51.0 3.0)
        = Return ([ "<svg xmlns=" +:+ dq +:+ "http://www.w3.org/2000/svg"
                      +:+ dq +:+ " viewBox=" +:+ dq +:+ "0 0 102.0 102.0"
                      +:+ dq +:+ " width=" +:+ dq +:+ "102.0px" +:+ dq
                      +:+ " height=" +:+ dq +:+ "102.0px" +:+ dq +:+ ">";
                    "<style>rect{fill:#f5f5f5;stroke:#333;stroke-width:0.5}</style>";
                    "<rect x=" +:+ dq +:+ "0" +:+ dq +:+ " y=" +:+ dq
                      +:+ "0" +:+ dq +:+ " width=" +:+ dq +:+ "102.0" +:+ dq
                      +:+ " height=" +:+ dq +:+ "102.0" +:+ dq +:+ " fill="
                      +:+ dq +:+ "none" +:+ dq +:+ " stroke=" +:+ dq
                      +:+ "#000" +:+ dq +:+ " stroke-width=" +:+ dq +:+ "1"
                      +:+ dq +:+ "/>" ]
                  ++ after)%list)
  /\ (exists before,
        run_lines (generate_scad_body 2 2 51.0 12.0 3.0 0.2 None
                     (Some (<["enable" := PyBool true]>
                            (<["diameter" := PyFloat 8.0]>
                             {[ "height" := PyFloat 5.5 ]}))))
        = Return (before
                  ++ map (fun xy : string * string =>
                            "    translate([" +:+ fst xy +:+ ", " +:+ snd xy
                            +:+ ", 3.0]) cylinder(h=5.5, r=4.0, $fn=32);")
                         centres
                  ++ [ "  }"; "}"; "posts();"; "tray();" ])%list)
  /\ run_lines (circles_body 2 2 51.0 8.0)
     = Return (map (fun xy : string * string =>
                      "<circle cx=" +:+ dq +:+ fst xy +:+ dq +:+ " cy="
                      +:+ dq +:+ snd xy +:+ dq +:+ " r=" +:+ dq +:+ "4.0"
                      +:+ dq +:+ " fill=" +:+ dq +:+ "#666" +:+ dq
                      +:+ " opacity=" +:+ dq +:+ "0.6" +:+ dq +:+ " />")
                   centres).
Proof.
  pose proof (documents_agree 2 2 51.0 12.0 3.0 0.2 None
                (<["enable" := PyBool true]>
                 (<["diameter" := PyFloat 8.0]>
                  {[ "height" := PyFloat 5.5 ]}))
                (PyBool true) 8.0 5.5 8.0) as H.
  destruct H as (H1 & H2 & H3 & H4 & _);
    try (apply float_range_small; lia); try reflexivity.
  cbv zeta.
  destruct H1 as (b1 & a1 & H1). destruct H2 as (a2 & H2).
  destruct H3 as (b3 & H3).
  split; [|split; [|split]].
  - exists b1, a1. refine (eq_trans H1 _). vm_compute. reflexivity.
  - exists a2. refine (eq_trans H2 _). vm_compute. reflexivity.
  - exists b3. refine (eq_trans H3 _). vm_compute. reflexivity.
  - refine (eq_trans H4 _). vm_compute. reflexivity.
Defined.
End Documents.

(** ** The routes *)

Module Views.
Import PyNum PyExec PyVal App Routes Stl Lines Text.
Import TextFacts PairFacts RunFacts GenFacts.
Import CellFacts LineFacts RouteFacts RangeFacts.
Import CountFacts.

Ltac split_args H :=
  repeat match type of H with
         | context [arg_float ?pf ?a ?k ?d] =>
             let E := fresh "E" in
             destruct (arg_float pf a k d) eqn:E;
             cbv beta iota in H; try discriminate H
         | context [arg_int ?pi ?a ?k ?d] =>
             let E := fresh "E" in
             destruct (arg_int pi a k d) eqn:E;
             cbv beta iota in H; try discriminate H
         end.

Lemma arg_int_raise py_int args key d e :
  arg_int py_int args key d = Raise e ->
  e = ValueError /\ exists s, args !! key = Some s /\ py_int s = None.
Proof.
  unfold arg_int. destruct (args !! key) as [s|]; [|discriminate].
  destruct (py_int s) eqn:E; [discriminate|].
  intros [= <-]. split; [reflexivity|]. exists s. auto.
Qed.

Lemma arg_float_raise py_float args key d e :
  arg_float py_float args key d = Raise e ->
  e = ValueError /\ exists s, args !! key = Some s /\ py_float s = None.
Proof.
  unfold arg_float. destruct (args !! key) as [s|]; [|discriminate].
  destruct (py_float s) eqn:E; [discriminate|].
  intros [= <-]. split; [reflexivity|]. exists s. auto.
Qed.

Lemma arg_float_unparsable py_float args key d s :
  args !! key = Some s -> py_float s = None ->
  arg_float py_float args key d = Raise ValueError.
Proof. intros H1 H2. unfold arg_float. rewrite H1, H2. reflexivity. Qed.

Lemma preview_render_returns p :
  float_range (pv_cols p) -> float_range (pv_rows p) ->
  exists svg, preview_render p = Return svg.
Proof.
  intros Hc Hr. unfold preview_render, try_bind.
  rewrite generate_svg_lines by assumption.
  destruct (pv_post_enable p); [|eexists; reflexivity].
  rewrite (run_lines_emits _ _
             (emits_circles (pv_cols p) (pv_rows p) (pv_cell p) (pv_post_d p)
                Hc Hr)).
  eexists. reflexivity.
Qed.

(** X8: [preview_svg] never raises. Whatever the query and whatever the
    parsers accept, it answers either the 400 response 'Invalid
    parameters' or an SVG image; the clamp keeps [cols] and [rows] where
    the generator cannot overflow. *)
Theorem preview_svg_answers py_int py_float args :
  preview_svg py_int py_float args = Return invalid_parameters
  \/ exists svg,
       preview_svg py_int py_float args
       = Return (ResponseOk svg "image/svg+xml").
Proof.
  unfold preview_svg.
  destruct (preview_parse py_int py_float args) as [e|p] eqn:Hp.
  - left. reflexivity.
  - right. destruct (preview_parse_range _ _ _ _ Hp) as [Hc Hr].
    destruct (preview_render_returns p Hc Hr) as [svg Hsvg].
    exists svg. unfold try_bind. rewrite Hsvg. reflexivity.
Qed.

Lemma dictionaries_raise py_float args e :
  (grid <~ grid_of_args py_float args ;;
   posts <~ posts_of_args py_float args ;; Return (grid, posts)) = Raise e ->
  e = ValueError
  /\ exists key s, key ∈ optional_keys /\ args !! key = Some s
                   /\ py_float s = None.
Proof.
  unfold grid_of_args, posts_of_args, try_bind, optional_keys. intros H.
  split_args H;
    match goal with
    | E : arg_float _ _ ?k _ = Raise _ |- _ =>
        injection H as <-;
        destruct (arg_float_raise _ _ _ _ _ E) as [-> (s & Hs1 & Hs2)];
        split; [reflexivity|]; exists k, s;
        split; [|split; assumption];
        repeat first [apply list_elem_of_here | apply list_elem_of_further]
    end.
Qed.

Lemma dictionaries_unparsable py_float args key s :
  key ∈ optional_keys -> args !! key = Some s -> py_float s = None ->
  (grid <~ grid_of_args py_float args ;;
   posts <~ posts_of_args py_float args ;; Return (grid, posts))
  = Raise ValueError.
Proof.
  intros Hk Hs1 Hs2. unfold grid_of_args, posts_of_args, try_bind.
  pose proof (fun d => arg_float_unparsable py_float args key d s Hs1 Hs2) as U.
  unfold optional_keys in Hk.
  repeat (apply elem_of_cons in Hk as [->|Hk]);
    [ .. | apply elem_of_nil in Hk; contradiction ];
    repeat match goal with
           | |- context [arg_float py_float args ?k ?d] =>
               first [ rewrite (U d)
                     | let E := fresh "E" in
                       destruct (arg_float py_float args k d) as [e|?] eqn:E;
                       [ destruct (arg_float_raise _ _ _ _ _ E) as [-> _] | ] ]
           end; reflexivity.
Qed.

Lemma scad_parse_returns py_int py_float args p :
  scad_parse py_int py_float args = Return p ->
  float_range (sp_cols p) /\ float_range (sp_rows p).
Proof.
  intros H. destruct (scad_parse_range _ _ _ _ H).
  split; apply float_range_small; lia.
Qed.

(** The three routes that build the model text, up to what they do with
    it: the dictionaries, then the document. *)
Lemma model_text_of_query py_int py_float args p g ps :
  scad_parse py_int py_float args = Return p ->
  grid_of_args py_float args = Return g ->
  posts_of_args py_float args = Return ps ->
  generate_scad (sp_cols p) (sp_rows p) (sp_cell p) (sp_height p) (sp_wall p)
    0.2 (Some g) (Some ps)
  = Return (join newline
              (scad_lines (sp_cols p) (sp_rows p) (sp_cell p) (sp_height p)
                 (sp_wall p) 0.2 (Some g) (Some ps))).
Proof.
  intros Hp _ _. destruct (scad_parse_returns _ _ _ _ Hp).
  apply generate_scad_lines; assumption.
Qed.

(** X9: when [download_scad] raises instead of answering. It does so in
    two cases only: one of the five optional numbers is given and does not
    parse ([ValueError], raised outside the [try] block), or the cell size
    is not a number or is infinite, so that [int(cell)] in the file name
    raises. It never raises because of [cols] or [rows]. *)
Theorem download_scad_raises py_int py_float args e :
  download_scad py_int py_float args = Raise e ->
  (e = ValueError
   /\ exists key s, key ∈ optional_keys /\ args !! key = Some s
                    /\ py_float s = None)
  \/ (exists p, scad_parse py_int py_float args = Return p
                /\ float_to_int (sp_cell p) = Raise e).
Proof.
  unfold download_scad. intros H.
  destruct (scad_parse py_int py_float args) as [e0|p] eqn:Hp;
    [discriminate H|].
  destruct (grid_of_args py_float args) as [e1|g] eqn:Hg.
  - left. apply (dictionaries_raise py_float args).
    cbn [try_bind] in H. rewrite Hg. cbn [try_bind]. congruence.
  - destruct (posts_of_args py_float args) as [e2|ps] eqn:Hps.
    + left. apply (dictionaries_raise py_float args).
      cbn [try_bind] in H. rewrite Hg. cbn [try_bind]. rewrite Hps.
      cbn [try_bind]. congruence.
    + right. exists p. split; [reflexivity|].
      cbn [try_bind] in H.
      rewrite (model_text_of_query _ _ _ _ _ _ Hp Hg Hps) in H.
      cbn [try_bind] in H.
      destruct (float_to_int (sp_cell p)); cbn [try_bind] in H;
        [congruence | discriminate H].
Qed.

Lemma download_scad_raises_witness :
  download_scad no_int nan_only {[ "cell" := "nan" ]} = Raise ValueError
  /\ exists p, scad_parse no_int nan_only {[ "cell" := "nan" ]} = Return p
               /\ float_to_int (sp_cell p) = Raise ValueError.
Proof.
  assert (H : download_scad no_int nan_only {[ "cell" := "nan" ]}
              = Raise ValueError) by (vm_compute; reflexivity).
  split; [exact H|].
  destruct (download_scad_raises _ _ _ _ H) as [[_ (key & s & Hk & Hs & Hn)]|H'].
  - exfalso. unfold optional_keys in Hk.
    repeat (apply elem_of_cons in Hk as [->|Hk]);
      try (apply elem_of_nil in Hk; contradiction);
      vm_compute in Hs; discriminate Hs.
  - exact H'.
Defined.

Lemma preview_parse_unparsable py_int py_float args key s :
  key ∈ optional_keys -> args !! key = Some s -> py_float s = None ->
  exists e, preview_parse py_int py_float args = Raise e.
Proof.
  intros Hk Hs1 Hs2. unfold preview_parse, try_bind.
  pose proof (fun d => arg_float_unparsable py_float args key d s Hs1 Hs2) as U.
  unfold optional_keys in Hk.
  repeat (apply elem_of_cons in Hk as [->|Hk]);
    [ .. | apply elem_of_nil in Hk; contradiction ];
    repeat match goal with
           | |- context [arg_int py_int args ?k ?d] =>
               destruct (arg_int py_int args k d);
               [eexists; reflexivity|]
           | |- context [arg_float py_float args ?k ?d] =>
               first [ rewrite (U d)
                     | destruct (arg_float py_float args k d);
                       [eexists; reflexivity|] ]
           end; eexists; reflexivity.
Qed.

Lemma index_of_scad_parse py_int py_float args p :
  scad_parse py_int py_float args = Return p ->
  exists fp,
    index py_int py_float args = Return (Template "index.html" fp)
    /\ p = {| sp_cols := clamp (fp_cols fp); sp_rows := clamp (fp_rows fp);
              sp_cell := fp_cell fp; sp_height := fp_height fp;
              sp_wall := fp_wall fp |}.
Proof.
  unfold scad_parse, index, try_bind. intros H. split_args H.
  injection H as <-. eexists. split; reflexivity.
Qed.

(** X10: one bad optional number, five answers. When one of [grid_pitch],
    [grid_thick], [grid_h], [post_d], [post_h] is given and does not parse
    while the five main parameters do, the preview answers 400 'Invalid
    parameters', whereas the three routes that build the model text raise
    [ValueError] (they read these numbers outside their [try] block) and
    the form, which does not read them, is rendered. *)
Theorem unparsable_optional py_int py_float sys args key s p :
  key ∈ optional_keys -> args !! key = Some s -> py_float s = None ->
  scad_parse py_int py_float args = Return p ->
  preview_svg py_int py_float args = Return invalid_parameters
  /\ download_scad py_int py_float args = Raise ValueError
  /\ model_stl py_int py_float sys args = Raise ValueError
  /\ download_stl py_int py_float sys args = Raise ValueError
  /\ exists fp, index py_int py_float args = Return (Template "index.html" fp).
Proof.
  intros Hk Hs1 Hs2 Hp.
  pose proof (dictionaries_unparsable py_float args key s Hk Hs1 Hs2) as D.
  assert (D' : forall (A : Type)
                 (k : gmap string pyval -> gmap string pyval -> result A),
             (grid <~ grid_of_args py_float args ;;
              posts <~ posts_of_args py_float args ;; k grid posts)
             = Raise ValueError).
  { intros A k. unfold try_bind in *.
    destruct (grid_of_args py_float args) as [e|g]; [congruence|].
    destruct (posts_of_args py_float args) as [e|ps]; congruence. }
  split; [|split; [|split; [|split]]].
  - unfold preview_svg.
    destruct (preview_parse_unparsable py_int py_float args key s Hk Hs1 Hs2)
      as [e ->]. reflexivity.
  - unfold download_scad. rewrite Hp. apply D'.
  - unfold model_stl. rewrite Hp. apply D'.
  - unfold download_stl. rewrite Hp. apply D'.
  - destruct (index_of_scad_parse _ _ _ _ Hp) as (fp & H & _).
    exists fp. exact H.
Qed.

Lemma unparsable_optional_witness :
  preview_svg no_int no_float {[ "post_d" := "wide" ]}
  = Return invalid_parameters
  /\ download_scad no_int no_float {[ "post_d" := "wide" ]}
     = Raise ValueError.
Proof.
  destruct (unparsable_optional no_int no_float no_openscad
              {[ "post_d" := "wide" ]} "post_d" "wide"
              {| sp_cols := 3; sp_rows := 2; sp_cell := 51.0;
                 sp_height := 12.0; sp_wall := 3.0 |})
    as (H1 & H2 & _).
  - unfold optional_keys. do 3 apply list_elem_of_further.
    apply list_elem_of_here.
  - reflexivity.
  - reflexivity.
  - vm_compute. reflexivity.
  - split; assumption.
Defined.

(** X11: the form and the downloads read the same five parameters with
    the same defaults, but only the downloads clamp: whenever the form is
    rendered with some [cols] and [rows], the download of the same query
    uses them clamped to 1..80, which changes them exactly when they lie
    outside that range. *)
Theorem index_not_clamped py_int py_float args name fp :
  index py_int py_float args = Return (Template name fp) ->
  scad_parse py_int py_float args
  = Return {| sp_cols := Z.max 1 (Z.min 80 (fp_cols fp));
              sp_rows := Z.max 1 (Z.min 80 (fp_rows fp));
              sp_cell := fp_cell fp; sp_height := fp_height fp;
              sp_wall := fp_wall fp |}
  /\ (Z.max 1 (Z.min 80 (fp_cols fp)) = fp_cols fp <-> 1 <= fp_cols fp <= 80)
  /\ (Z.max 1 (Z.min 80 (fp_rows fp)) = fp_rows fp <-> 1 <= fp_rows fp <= 80).
Proof.
  unfold index, scad_parse, try_bind. intros H. split_args H.
  injection H as _ <-. simpl. split; [reflexivity|]. lia.
Qed.

Lemma index_not_clamped_witness :
  index thousand_only no_float {[ "cols" := "1000" ]}
  = Return (Template "index.html"
              {| fp_cols := 1000; fp_rows := 2; fp_cell := 51.0;
                 fp_height := 12.0; fp_wall := 3.0 |})
  /\ scad_parse thousand_only no_float {[ "cols" := "1000" ]}
     = Return {| sp_cols := 80; sp_rows := 2; sp_cell := 51.0;
                 sp_height := 12.0; sp_wall := 3.0 |}.
Proof.
  assert (H : index thousand_only no_float {[ "cols" := "1000" ]}
              = Return (Template "index.html"
                          {| fp_cols := 1000; fp_rows := 2; fp_cell := 51.0;
                             fp_height := 12.0; fp_wall := 3.0 |}))
    by (vm_compute; reflexivity).
  split; [exact H|].
  exact (proj1 (index_not_clamped _ _ _ _ _ H)).
Defined.

(** What the three model-text routes compute before parting ways. *)
Lemma download_scad_sends_name py_int py_float args scad mimetype name :
  download_scad py_int py_float args = Return (SendFile scad mimetype name) ->
  exists p g ps icell,
    scad_parse py_int py_float args = Return p
    /\ grid_of_args py_float args = Return g
    /\ posts_of_args py_float args = Return ps
    /\ float_to_int (sp_cell p) = Return icell
    /\ scad = join newline
                (scad_lines (sp_cols p) (sp_rows p) (sp_cell p) (sp_height p)
                   (sp_wall p) 0.2 (Some g) (Some ps))
    /\ mimetype = "text/plain"
    /\ name = "gridfinity_" +:+ str_int (sp_cols p) +:+ "x"
              +:+ str_int (sp_rows p) +:+ "_" +:+ str_int icell +:+ "mm.scad".
Proof.
  unfold download_scad. intros H.
  destruct (scad_parse py_int py_float args) as [e|p] eqn:Hp;
    [discriminate H|].
  destruct (grid_of_args py_float args) as [e|g] eqn:Hg;
    [discriminate H|].
  destruct (posts_of_args py_float args) as [e|ps] eqn:Hps;
    [discriminate H|].
  cbn [try_bind] in H.
  rewrite (model_text_of_query _ _ _ _ _ _ Hp Hg Hps) in H.
  cbn [try_bind] in H.
  destruct (float_to_int (sp_cell p)) as [e|icell] eqn:Hi;
    [discriminate H|].
  cbn [try_bind] in H.
  exists p, g, ps, icell. repeat (split; [reflexivity|]).
  repeat split; congruence.
Qed.

(** X12: the mesh is made from the text of the download. Whenever
    [download_scad] sends a document for a query, [model_stl] and
    [download_stl] hand exactly that document to the conversion, with the
    timeout 30, and what they do follows its outcome: a [RuntimeError]
    becomes a 500 response carrying the message; a mesh is served with the
    STL type, inline or as an attachment whose name is that of the download
    with [stl] for [scad]; an exception the conversion does not handle
    is not handled by the routes either, which raise it. *)
Theorem mesh_of_download py_int py_float sys args scad mimetype name :
  download_scad py_int py_float args = Return (SendFile scad mimetype name) ->
  model_stl py_int py_float sys args
  = match scad_to_stl sys scad 30 with
    | RuntimeError e => Return (Plain (Response e 500))
    | StlData mesh => Return (Inline mesh "application/vnd.ms-pki.stl")
    | Escapes e => Raise e
    end
  /\ exists stem,
       name = stem +:+ "scad"
       /\ download_stl py_int py_float sys args
          = match scad_to_stl sys scad 30 with
            | RuntimeError e => Return (Plain (Response e 500))
            | StlData mesh =>
                Return (Plain (SendFile mesh "application/vnd.ms-pki.stl"
                                 (stem +:+ "stl")))
            | Escapes e => Raise e
            end.
Proof.
  intros H.
  destruct (download_scad_sends_name _ _ _ _ _ _ H)
    as (p & g & ps & icell & Hp & Hg & Hps & Hi & -> & -> & ->).
  pose proof (model_text_of_query _ _ _ _ _ _ Hp Hg Hps) as Hdoc.
  split.
  - unfold model_stl. rewrite Hp, Hg. cbn [try_bind]. rewrite Hps.
    cbn [try_bind]. rewrite Hdoc. cbn [try_bind].
    destruct (scad_to_stl sys _ 30); reflexivity.
  - exists ("gridfinity_" +:+ str_int (sp_cols p) +:+ "x"
            +:+ str_int (sp_rows p) +:+ "_" +:+ str_int icell +:+ "mm.").
    split; [rewrite !append_assoc; reflexivity|].
    unfold download_stl. rewrite Hp, Hg. cbn [try_bind]. rewrite Hps.
    cbn [try_bind]. rewrite Hdoc. cbn [try_bind].
    destruct (scad_to_stl sys _ 30); [reflexivity| |reflexivity].
    rewrite Hi. cbn [try_bind]. rewrite !append_assoc. reflexivity.
Qed.

Lemma mesh_of_download_witness :
  model_stl no_int no_float no_openscad ∅
  = Return (Plain (Response
      "OpenSCAD CLI not found. Install OpenSCAD and ensure `openscad` is on PATH"
      500))
  /\ model_stl no_int no_float working_openscad ∅
     = Return (Inline "solid" "application/vnd.ms-pki.stl")
  /\ model_stl no_int no_float broken_openscad ∅ = Raise OSError.
Proof.
  split; [|split].
  - refine (eq_trans (proj1 (mesh_of_download no_int no_float no_openscad ∅
                               _ _ _ (download_scad_no_args _ _))) _).
    reflexivity.
  - refine (eq_trans (proj1 (mesh_of_download no_int no_float working_openscad
                               ∅ _ _ _ (download_scad_no_args _ _))) _).
    reflexivity.
  - refine (eq_trans (proj1 (mesh_of_download no_int no_float broken_openscad
                               ∅ _ _ _ (download_scad_no_args _ _))) _).
    reflexivity.
Defined.

(** X13: a cell size that is not a number, or is infinite. Such a value
    passes the [try] block ([float] accepts it) and the generator prints
    it. [download_scad] raises at [int(cell)] when it builds the file
    name. [model_stl] never computes [int(cell)]: it does what it does
    for any other size. [download_stl] raises at [int(cell)] only once the
    conversion has returned a mesh; before that a [RuntimeError] is
    answered with 500 and an exception the conversion does not handle is
    raised as it is. *)
Theorem non_finite_cell py_int py_float sys args p g ps e :
  scad_parse py_int py_float args = Return p ->
  grid_of_args py_float args = Return g ->
  posts_of_args py_float args = Return ps ->
  float_to_int (sp_cell p) = Raise e ->
  let doc := join newline
               (scad_lines (sp_cols p) (sp_rows p) (sp_cell p) (sp_height p)
                  (sp_wall p) 0.2 (Some g) (Some ps)) in
  download_scad py_int py_float args = Raise e
  /\ model_stl py_int py_float sys args
     = match scad_to_stl sys doc 30 with
       | RuntimeError m => Return (Plain (Response m 500))
       | StlData mesh => Return (Inline mesh "application/vnd.ms-pki.stl")
       | Escapes e' => Raise e'
       end
  /\ download_stl py_int py_float sys args
     = match scad_to_stl sys doc 30 with
       | RuntimeError m => Return (Plain (Response m 500))
       | StlData _ => Raise e
       | Escapes e' => Raise e'
       end.
Proof.
  intros Hp Hg Hps Hi doc.
  pose proof (model_text_of_query _ _ _ _ _ _ Hp Hg Hps) as Hdoc.
  split; [|split].
  - unfold download_scad. rewrite Hp, Hg. cbn [try_bind]. rewrite Hps.
    cbn [try_bind]. rewrite Hdoc. cbn [try_bind]. rewrite Hi. reflexivity.
  - unfold model_stl. rewrite Hp, Hg. cbn [try_bind]. rewrite Hps.
    cbn [try_bind]. rewrite Hdoc. cbn [try_bind].
    destruct (scad_to_stl sys _ 30); reflexivity.
  - unfold download_stl. rewrite Hp, Hg. cbn [try_bind]. rewrite Hps.
    cbn [try_bind]. rewrite Hdoc. cbn [try_bind]. fold doc.
    destruct (scad_to_stl sys doc 30); [reflexivity| |reflexivity].
    rewrite Hi. reflexivity.
Qed.

Lemma non_finite_cell_witness :
  download_scad no_int nan_only {[ "cell" := "nan" ]} = Raise ValueError
  /\ model_stl no_int nan_only working_openscad {[ "cell" := "nan" ]}
     = Return (Inline "solid" "application/vnd.ms-pki.stl")
  /\ download_stl no_int nan_only working_openscad {[ "cell" := "nan" ]}
     = Raise ValueError
  /\ download_stl no_int nan_only no_openscad {[ "cell" := "nan" ]}
     = Return (Plain (Response
         "OpenSCAD CLI not found. Install OpenSCAD and ensure `openscad` is on PATH"
         500))
  /\ download_stl no_int nan_only broken_openscad {[ "cell" := "nan" ]}
     = Raise OSError.
Proof.
  pose proof (fun sys =>
    non_finite_cell no_int nan_only sys
      {[ "cell" := "nan" ]}
      {| sp_cols := 3; sp_rows := 2; sp_cell := nan;
         sp_height := 12.0; sp_wall := 3.0 |}
      (<["enable" := PyBool true]>
       (<["pitch" := PyFloat 6.0]>
        (<["thickness" := PyFloat 1.5]>
         (<["height" := PyFloat 2.5]> ∅))))
      (<["enable" := PyBool false]>
       (<["diameter" := PyFloat 6.0]>
        (<["height" := PyFloat 4.0]> ∅)))
      ValueError eq_refl eq_refl eq_refl eq_refl) as H.
  split; [exact (proj1 (H working_openscad))|].
  split; [exact (proj1 (proj2 (H working_openscad)))|].
  split; [exact (proj2 (proj2 (H working_openscad)))|].
  split; [exact (proj2 (proj2 (H no_openscad)))|].
  exact (proj2 (proj2 (H broken_openscad))).
Defined.

(** X14: the preview shows neither the floor grid nor the height of the
    posts. Two queries that parse and agree on [cols], [rows], [cell],
    [wall], the posts flag and the post diameter get the same answer,
    whatever they say about the grid and the post height. *)
Theorem preview_ignores_grid py_int py_float args1 args2 p1 p2 :
  preview_parse py_int py_float args1 = Return p1 ->
  preview_parse py_int py_float args2 = Return p2 ->
  pv_cols p1 = pv_cols p2 -> pv_rows p1 = pv_rows p2 ->
  pv_cell p1 = pv_cell p2 -> pv_wall p1 = pv_wall p2 ->
  pv_post_enable p1 = pv_post_enable p2 -> pv_post_d p1 = pv_post_d p2 ->
  preview_svg py_int py_float args1 = preview_svg py_int py_float args2.
Proof.
  intros H1 H2 Ec Er Ece Ew Ee Ed.
  unfold preview_svg. rewrite H1, H2. unfold preview_render.
  rewrite Ec, Er, Ece, Ew, Ee, Ed. reflexivity.
Qed.

Lemma preview_ignores_grid_witness :
  preview_svg no_int no_float {[ "grid" := "0" ]}
  = preview_svg no_int no_float ∅.
Proof.
  eapply preview_ignores_grid; vm_compute; reflexivity.
Defined.

(** X15: the size of a download is bounded. Whatever the query asks for,
    the document [download_scad] sends has between 20 and 6432 lines,
    since [cols] and [rows] are clamped to 80: it has between 19 and 6431
    newline characters. *)
Theorem download_size_bound py_int py_float args scad mimetype name :
  download_scad py_int py_float args = Return (SendFile scad mimetype name) ->
  19 <= Z.of_nat (count_char "010" scad) <= 6431.
Proof.
  intros H.
  destruct (download_scad_sends _ _ _ _ _ _ H)
    as (p & g & ps & Hp & _ & _ & ->).
  destruct (scad_parse_range _ _ _ _ Hp) as [Hc Hr].
  assert (Hcells : 1 <= sp_cols p * sp_rows p <= 6400) by nia.
  change newline with (String "010" "").
  rewrite count_separators by apply scad_lines_one_line.
  unfold scad_lines, floor_grid_lines, posts_lines.
  rewrite !length_app.
  destruct (enabled (Some g)), (enabled (Some ps));
    rewrite ?length_app, ?length_map, ?cells_length; simpl length;
    rewrite Nat2Z.inj_pred by lia;
    rewrite ?Nat2Z.inj_add, ?Nat2Z.inj_mul, ?Z2Nat.id by lia; lia.
Qed.

Lemma download_size_bound_witness :
  19 <= Z.of_nat (count_char "010" default_download) <= 6431.
Proof.
  exact (download_size_bound no_int no_float ∅ _ _ _
           (download_scad_no_args no_int no_float)).
Defined.
End Views.

(** ** Markup of the preview and the conversion *)

Module Markup.
Import PyNum PyExec PyVal App Routes Stl Lines Text.
Import TextFacts PairFacts RunFacts GenFacts.
Import CellFacts LineFacts RouteFacts RangeFacts.
Import CountFacts.

Lemma count_lt_lines w h px py pw ph :
  count_char "<" (svg_open w h) = 1%nat
  /\ count_char "<" svg_style = 2%nat
  /\ count_char "<" (border_rect w h) = 1%nat
  /\ count_char "<" (pocket_rect px py pw ph) = 1%nat.
Proof.
  unfold svg_open, border_rect, pocket_rect. cbv zeta.
  repeat split; try reflexivity; count_line "<"%char.
Qed.

Lemma count_gt_lines w h px py pw ph :
  count_char ">" (svg_open w h) = 1%nat
  /\ count_char ">" svg_style = 2%nat
  /\ count_char ">" (border_rect w h) = 1%nat
  /\ count_char ">" (pocket_rect px py pw ph) = 1%nat.
Proof.
  unfold svg_open, border_rect, pocket_rect. cbv zeta.
  repeat split; try reflexivity; count_line ">"%char.
Qed.

(** X16: the numbers printed in the preview add no markup. A document
    returned by [generate_svg] for a grid has exactly [5 + cols*rows]
    opening angle brackets and as many closing ones: one pair per tag,
    whatever the floats are. *)
Theorem preview_brackets cols rows cell wall :
  0 <= cols -> 0 <= rows -> float_range cols -> float_range rows ->
  exists doc,
    generate_svg cols rows cell wall = Return doc
    /\ Z.of_nat (count_char "<" doc) = 5 + cols * rows
    /\ Z.of_nat (count_char ">" doc) = 5 + cols * rows.
Proof.
  intros Hc0 Hr0 Hc Hr. eexists.
  split; [apply generate_svg_lines; assumption|].
  unfold svg_lines, svg_head.
  destruct (count_lt_lines (total_x cols cell) (total_y rows cell) 0 0 0 0)
    as (L1 & L2 & L3 & _).
  destruct (count_gt_lines (total_x cols cell) (total_y rows cell) 0 0 0 0)
    as (G1 & G2 & G3 & _).
  split; rewrite count_join by reflexivity;
    rewrite !map_app, !list_sum_app,
      (map_map (preview_pocket cell wall) (count_char _)).
  - rewrite (list_sum_const
               (fun c => count_char "<" (preview_pocket cell wall c)) 1
               (cells cols rows))
      by (intros c; unfold preview_pocket;
          apply (proj2 (proj2 (proj2 (count_lt_lines 0 0 _ _ _ _))))).
    rewrite cells_length. cbn [map]. rewrite L1, L2, L3.
    simpl. nia.
  - rewrite (list_sum_const
               (fun c => count_char ">" (preview_pocket cell wall c)) 1
               (cells cols rows))
      by (intros c; unfold preview_pocket;
          apply (proj2 (proj2 (proj2 (count_gt_lines 0 0 _ _ _ _))))).
    rewrite cells_length. cbn [map]. rewrite G1, G2, G3.
    simpl. nia.
Qed.

Lemma preview_brackets_witness :
  exists doc,
    generate_svg 3 2 51.0 3.0 = Return doc
    /\ Z.of_nat (count_char "<" doc) = 5 + 3 * 2
    /\ Z.of_nat (count_char ">" doc) = 5 + 3 * 2.
Proof.
  apply preview_brackets; first [lia | apply float_range_small; lia].
Defined.

(** X17: what [scad_to_stl] can do. It returns a mesh exactly when the
    executable is found, the run exits with status 0 and [model.stl] is
    there, and the mesh is then the content of that file. It raises
    [RuntimeError] exactly when the executable is not found, the process
    exits with an error or runs out of time, or no [model.stl] is left, and
    the message then begins with [OpenSCAD]. Any other exception raised
    inside the [with] block passes through as it is: the docstring's
    'raises RuntimeError if conversion fails' covers the four cases above
    only. Without the executable nothing is run. *)
Theorem scad_to_stl_outcome sys text timeout :
  (forall mesh,
     scad_to_stl sys text timeout = StlData mesh
     <-> exists path, which_openscad sys = Some path /\ path <> ""
                      /\ run_openscad sys path text timeout
                         = Exited (Some mesh))
  /\ (forall message,
        scad_to_stl sys text timeout = RuntimeError message
        <-> (message
             = "OpenSCAD CLI not found. Install OpenSCAD and ensure `openscad` is on PATH"
             /\ (which_openscad sys = None \/ which_openscad sys = Some ""))
            \/ exists path,
                 which_openscad sys = Some path /\ path <> ""
                 /\ ((exists error,
                        run_openscad sys path text timeout = Failed error
                        /\ message = "OpenSCAD failed: " +:+ error)
                     \/ (run_openscad sys path text timeout = TimedOut
                         /\ message = "OpenSCAD timeout")
                     \/ (run_openscad sys path text timeout = Exited None
                         /\ message = "OpenSCAD did not produce an STL")))
  /\ (forall message,
        scad_to_stl sys text timeout = RuntimeError message ->
        String.prefix "OpenSCAD" message = true)
  /\ (forall e,
        scad_to_stl sys text timeout = Escapes e
        <-> exists path, which_openscad sys = Some path /\ path <> ""
                         /\ run_openscad sys path text timeout = Unhandled e)
  /\ (which_openscad sys = None ->
      forall run',
        scad_to_stl {| which_openscad := None; run_openscad := run' |}
          text timeout
        = scad_to_stl sys text timeout).
Proof.
  unfold scad_to_stl. split; [|split; [|split; [|split]]].
  - intros mesh. split.
    + destruct (which_openscad sys) as [path|]; [|discriminate].
      destruct (String.eqb_spec path ""); [discriminate|].
      destruct (run_openscad sys path text timeout) as [[d|]| | |] eqn:E;
        try discriminate.
      intros [= ->]. exists path. auto.
    + intros (path & -> & Hne & ->).
      destruct (String.eqb_spec path ""); [contradiction | reflexivity].
  - intros message. split.
    + destruct (which_openscad sys) as [path|];
        [|intros [= <-]; left; auto].
      destruct (String.eqb_spec path "") as [->|Hne];
        [intros [= <-]; left; auto|].
      destruct (run_openscad sys path text timeout) as [[d|]|error| |] eqn:E;
        try discriminate; intros [= <-]; right; exists path;
        (split; [reflexivity|]); (split; [exact Hne|]).
      * right. right. auto.
      * left. exists error. auto.
      * right. left. auto.
    + intros [[-> [->| ->]]|(path & -> & Hne & H)]; [reflexivity..|].
      destruct (String.eqb_spec path ""); [contradiction|].
      destruct H as [(error & -> & ->)|[[-> ->]|[-> ->]]]; reflexivity.
  - intros message.
    destruct (which_openscad sys) as [path|]; [|intros [= <-]; reflexivity].
    destruct (String.eqb path ""); [intros [= <-]; reflexivity|].
    destruct (run_openscad sys path text timeout) as [[d|]| | |];
      try discriminate; intros [= <-]; reflexivity.
  - intros e. split.
    + destruct (which_openscad sys) as [path|]; [|discriminate].
      destruct (String.eqb_spec path ""); [discriminate|].
      destruct (run_openscad sys path text timeout) as [[d|]| | |] eqn:E;
        try discriminate.
      intros [= ->]. exists path. auto.
    + intros (path & -> & Hne & ->).
      destruct (String.eqb_spec path ""); [contradiction | reflexivity].
  - intros ->. reflexivity.
Qed.

Lemma scad_to_stl_outcome_witness :
  scad_to_stl working_openscad "cube(1);" 30 = StlData "solid"
  /\ scad_to_stl broken_openscad "cube(1);" 30 = Escapes OSError.
Proof.
  split.
  - apply (proj1 (scad_to_stl_outcome working_openscad "cube(1);" 30) "solid").
    exists "/usr/bin/openscad". repeat split. discriminate.
  - apply (proj1 (proj2 (proj2 (proj2
             (scad_to_stl_outcome broken_openscad "cube(1);" 30)))) OSError).
    exists "/usr/local/bin/openscad". repeat split. discriminate.
Defined.
End Markup.
